(** * The QA harness of dattavani-asr, embedded and verified

    The harness is five Python scripts: the check suite ([qa_agent.py]), the
    aggregator of persisted reports ([aggregate_qa_results.py]), the dashboard
    trend analysis ([qa_dashboard.py]), the performance benchmark
    ([performance_benchmark.py]) and the security checker
    ([security_check.py]).  Each script is one module below.

    Conventions of the embedding:
    - a Python [str] is a [string]; statuses, ratings, categories and check
      names stay strings, as in the source;
    - a Python [int] is a [Z];
    - a Python [float] that is only compared with fixed thresholds (a
      duration, a memory sample in MB, a file size) is an exact rational of
      [Q];
    - the trend analysis of the dashboard adds, divides and compares pass
      rates, and there the rounding of each operation decides the answer: its
      floats are IEEE 754 binary64 numbers ([spec_float] with a precision of
      53 bits), every operation rounded to nearest, ties to even;
    - what a check observes of the outside world (exit codes, captured
      streams, file contents, memory samples) is an explicit input record;
    - [self.results] of the suite is threaded through a state monad whose
      computations may raise. *)

From Stdlib Require Import ZArith QArith Qminmax String Ascii List Bool Lia Lqa.
From Stdlib Require Import Permutation Sorted SpecFloat.
From Stdlib Require OrderedTypeEx.
Import ListNotations.

Local Open Scope string_scope.
Local Open Scope Z_scope.

(** ** Python built-ins used by the scripts *)

Module Py.

(** [needle in hay] on strings. *)
Definition contains (needle hay : string) : bool :=
  match String.index 0 needle hay with
  | Some _ => true
  | None => false
  end.

(** [x in l] on a list of strings. *)
Definition mem (x : string) (l : list string) : bool :=
  existsb (String.eqb x) l.

Definition lower_ascii (c : ascii) : ascii :=
  let n := nat_of_ascii c in
  if (Nat.leb 65 n && Nat.leb n 90)%bool then ascii_of_nat (n + 32) else c.

(** [s.lower()], on ASCII text. *)
Fixpoint lower (s : string) : string :=
  match s with
  | EmptyString => EmptyString
  | String c t => String (lower_ascii c) (lower t)
  end.

(** [hay.count(needle)]: occurrences that do not overlap, left to right.
    [skip] is the number of characters still covered by the last match. *)
Fixpoint count_from (skip : nat) (needle hay : string) : Z :=
  match hay with
  | EmptyString => 0
  | String _ t =>
      match skip with
      | S k => count_from k needle t
      | O =>
          if String.prefix needle hay
          then 1 + count_from (String.length needle - 1) needle t
          else count_from 0 needle t
      end
  end.

Definition count (needle hay : string) : Z := count_from 0 needle hay.

(** [len(l)]. *)
Definition len {A : Type} (l : list A) : Z := Z.of_nat (List.length l).

(** [sum(l)] on integers and on floats. *)
Definition sumZ (l : list Z) : Z := fold_right Z.add 0 l.
Definition sumQ (l : list Q) : Q := fold_right Qplus (0 # 1) l.

(** [max(l)] on a list of floats ([0] stands for the [ValueError] of an empty
    list, which no caller reaches). *)
Definition maxQ (l : list Q) : Q :=
  match l with
  | [] => 0 # 1
  | x :: t => fold_left Qmax t x
  end.

(** [a < b] and [a >= b] on floats. *)
Definition Qltb (a b : Q) : bool := negb (Qle_bool b a).
Definition Qgeb (a b : Q) : bool := Qle_bool b a.
Definition Qgtb (a b : Q) : bool := negb (Qle_bool a b).

(** [a / b] of two integers, the true division; the callers guard [b <> 0]. *)
Definition truediv (a b : Z) : Q := inject_Z a / inject_Z b.

(** [d.get(k, default)] on an optional key. *)
Definition get {A : Type} (field : option A) (default : A) : A :=
  match field with
  | Some v => v
  | None => default
  end.

(** What a call leaves behind: a value, or a raised exception. *)
Inductive outcome (A : Type) : Type :=
| Returned (a : A)
| Raised (e : string).

Arguments Returned {A} a.
Arguments Raised {A} e.

End Py.

(** ** [qa_agent.py]: the check suite *)

Module QAAgent.
Import Py.

(** [TestResult].  The record keeps the fields the accounting reads; the
    duration, the message text, the details and the timestamp of the
    dataclass are not read by any count or status. *)
Record TestResult : Type := mkTestResult {
  name : string;
  category : string;
  status : string
}.

(** The outcome of [run_command]: it catches every exception itself and
    answers with exit code [-1] then. *)
Record cmd_result : Type := mkCmd {
  exit_code : Z;
  stdout : string;
  stderr : string
}.

(** The memory probe of [test_memory_usage]. *)
Inductive memory_probe : Type :=
| PsutilMissing                      (* [import psutil] raises ImportError *)
| PopenRaises (e : string)           (* the child could not be started *)
| Sampled (memory_samples : list Q). (* the child ran; the samples, in MB *)

(** Everything the suite observes while it runs. *)
Record Env : Type := mkEnv {
  binary_exists : bool;
  binary_executable : bool;
  help_run : cmd_result;
  version_run : cmd_result;
  formats_run : cmd_result;
  config_tmpfile : outcome unit;
  config_run : cmd_result;
  config_exists : bool;
  config_content : outcome string;
  config_cleanup : outcome unit;
  invalid_run : cmd_result;
  startup_run : nat -> Z * Q;
  memory : memory_probe;
  clippy_run : cmd_result;
  repro_binary_exists : bool;
  original_hash : outcome string;
  rebuild_run : cmd_result;
  new_hash : outcome string
}.

(** The agent's methods: state is [self.results], and a method may raise. *)
Definition M (A : Type) : Type :=
  list TestResult -> outcome A * list TestResult.

Definition ret {A : Type} (a : A) : M A := fun s => (Returned a, s).

Definition raise {A : Type} (e : string) : M A := fun s => (Raised e, s).

Definition bind {A B : Type} (m : M A) (k : A -> M B) : M B :=
  fun s =>
    match m s with
    | (Returned a, s') => k a s'
    | (Raised e, s') => (Raised e, s')
    end.

(** An operation of the outside world that may raise. *)
Definition perform {A : Type} (o : outcome A) : M A := fun s => (o, s).

(** [try: m  except Exception as e: handler e]. *)
Definition try_except {A : Type} (m : M A) (handler : string -> M A) : M A :=
  fun s =>
    match m s with
    | (Returned a, s') => (Returned a, s')
    | (Raised e, s') => handler e s'
    end.

(** [try: body  finally: cleanup].  The clean-up runs on every path; when it
    raises, its exception replaces whatever the body left. *)
Definition try_finally {A : Type} (body : M A) (cleanup : M unit) : M A :=
  fun s =>
    match body s with
    | (r, s') =>
        match cleanup s' with
        | (Returned _, s'') => (r, s'')
        | (Raised e, s'') => (Raised e, s'')
        end
    end.

Notation "x <- m ;; k" := (bind m (fun x => k))
  (at level 61, m at next level, right associativity).
Notation "m ;; k" := (bind m (fun _ => k))
  (at level 61, right associativity).

Definition add_result (name category status : string) : M unit :=
  fun s => (Returned tt, (s ++ [mkTestResult name category status])%list).

Definition test_binary_exists (env : Env) : M bool :=
  if negb (binary_exists env) then
    add_result "Binary Existence" "build" "FAIL" ;; ret false
  else if negb (binary_executable env) then
    add_result "Binary Executable" "build" "FAIL" ;; ret false
  else
    add_result "Binary Existence" "build" "PASS" ;; ret true.

Definition test_help_command (env : Env) : M bool :=
  let r := help_run env in
  if negb (exit_code r =? 0) then
    add_result "Help Command" "cli" "FAIL" ;; ret false
  else
    let expected_content :=
      ["High-performance Automatic Speech Recognition"; "Commands:";
       "stream-process"; "stream-batch"; "supported-formats"] in
    let missing_content :=
      filter (fun content => negb (contains content (stdout r)))
             expected_content in
    match missing_content with
    | _ :: _ => add_result "Help Command Content" "cli" "FAIL" ;; ret false
    | [] => add_result "Help Command" "cli" "PASS" ;; ret true
    end.

Definition test_version_command (env : Env) : M bool :=
  let r := version_run env in
  if negb (exit_code r =? 0) then
    add_result "Version Command" "cli" "FAIL" ;; ret false
  else if negb (contains "dattavani-asr" (lower (stdout r))) then
    add_result "Version Command Content" "cli" "FAIL" ;; ret false
  else
    add_result "Version Command" "cli" "PASS" ;; ret true.

Definition test_supported_formats (env : Env) : M bool :=
  let r := formats_run env in
  if negb (exit_code r =? 0) then
    add_result "Supported Formats Command" "cli" "FAIL" ;; ret false
  else
    let expected_formats := ["mp4"; "mp3"; "wav"; "avi"; "English"; "Spanish"] in
    let found_formats :=
      filter (fun fmt => contains fmt (stderr r)) expected_formats in
    if len found_formats <? 4 then
      add_result "Supported Formats Content" "cli" "FAIL" ;; ret false
    else
      add_result "Supported Formats Command" "cli" "PASS" ;; ret true.

(** [test_generate_config].  Creating the scratch file comes before the
    [try] and may raise; [config_content] is what reading the file gives, and
    the read may raise; [config_cleanup] is the [finally] clause, which
    removes the file on every path and may raise as well, also after the
    check has recorded its result. *)
Definition test_generate_config (env : Env) : M bool :=
  perform (config_tmpfile env) ;;
  try_finally
    (let r := config_run env in
     if negb (exit_code r =? 0) then
       add_result "Generate Config Command" "cli" "FAIL" ;; ret false
     else if negb (config_exists env) then
       add_result "Generate Config File Creation" "cli" "FAIL" ;; ret false
     else
       config_content <- perform (config_content env) ;;
       let expected_sections :=
         ["[google]"; "[whisper]"; "[processing]"; "[logging]"] in
       let missing_sections :=
         filter (fun section => negb (contains section config_content))
                expected_sections in
       match missing_sections with
       | _ :: _ =>
           add_result "Generate Config Content" "cli" "FAIL" ;; ret false
       | [] => add_result "Generate Config Command" "cli" "PASS" ;; ret true
       end)
    (perform (config_cleanup env)).

Definition test_invalid_command (env : Env) : M bool :=
  let r := invalid_run env in
  if exit_code r =? 0 then
    add_result "Invalid Command Handling" "cli" "FAIL" ;; ret false
  else
    let error_indicators := ["error"; "invalid"; "unknown"; "help"] in
    let has_error_info :=
      existsb (fun indicator =>
                 contains indicator (lower (stderr r))
                 || contains indicator (lower (stdout r)))%bool
              error_indicators in
    if negb has_error_info then
      add_result "Invalid Command Error Message" "cli" "FAIL" ;; ret false
    else
      add_result "Invalid Command Handling" "cli" "PASS" ;; ret true.

Definition test_performance_startup (env : Env) : M bool :=
  let startup_times :=
    flat_map (fun i => let '(code, duration) := startup_run env i in
                       if code =? 0 then [duration] else [])
             (seq 0 5) in
  match startup_times with
  | [] => add_result "Startup Performance" "performance" "FAIL" ;; ret false
  | _ :: _ =>
      let avg_startup := (sumQ startup_times / inject_Z (len startup_times))%Q in
      let excellent_threshold := 1 # 1 in
      let good_threshold := 3 # 1 in
      let status :=
        if Qltb avg_startup excellent_threshold then "PASS"
        else if Qltb avg_startup good_threshold then "PASS"
        else "FAIL" in
      add_result "Startup Performance" "performance" status ;;
      ret (status =? "PASS")%string
  end.

(** Only [ImportError] is handled around the probe: a child that cannot be
    started raises to the engine.  A failure of [psutil.Process] or of a poll
    is swallowed and leaves the samples collected so far, possibly none. *)
Definition test_memory_usage (env : Env) : M bool :=
  match memory env with
  | PsutilMissing =>
      add_result "Memory Usage" "performance" "SKIP" ;; ret true
  | PopenRaises e => raise e
  | Sampled memory_samples =>
      match memory_samples with
      | _ :: _ =>
          let max_memory := maxQ memory_samples in
          let excellent_threshold := 100 # 1 in
          let good_threshold := 500 # 1 in
          let status :=
            if Qltb max_memory excellent_threshold then "PASS"
            else if Qltb max_memory good_threshold then "PASS"
            else "FAIL" in
          add_result "Memory Usage" "performance" status ;;
          ret (status =? "PASS")%string
      | [] =>
          add_result "Memory Usage" "performance" "SKIP" ;; ret true
      end
  end.

Definition test_code_quality (env : Env) : M bool :=
  let r := clippy_run env in
  if negb (exit_code r =? 0) then
    let error_count := count "error:" (stderr r) in
    if error_count >? 0 then
      add_result "Code Quality (Clippy)" "quality" "FAIL" ;; ret false
    else
      add_result "Code Quality (Clippy)" "quality" "PASS" ;; ret true
  else
    add_result "Code Quality (Clippy)" "quality" "PASS" ;; ret true.

Definition test_build_reproducibility (env : Env) : M bool :=
  if negb (repro_binary_exists env) then
    add_result "Build Reproducibility" "build" "SKIP" ;; ret true
  else
    original_hash <- perform (original_hash env) ;;
    if negb (exit_code (rebuild_run env) =? 0) then
      add_result "Build Reproducibility" "build" "FAIL" ;; ret false
    else
      new_hash <- perform (new_hash env) ;;
      if (original_hash =? new_hash)%string then
        add_result "Build Reproducibility" "build" "PASS" ;; ret true
      else
        add_result "Build Reproducibility" "build" "FAIL" ;; ret false.

(** [QAReport], with the keys of [summary] that are derived from the
    results. *)
Record QAReport : Type := mkQAReport {
  total_tests : Z;
  passed : Z;
  failed : Z;
  skipped : Z;
  errors : Z;
  results : list TestResult;
  overall_status : string;
  pass_rate : Q;
  categories_tested : list string
}.

(** A registered check: [test_func.__name__] and the method. *)
Definition check : Type := string * M bool.

Definition test_categories (env : Env) : list (string * list check) :=
  [ ("build", [ ("test_binary_exists", test_binary_exists env);
                ("test_build_reproducibility", test_build_reproducibility env) ]);
    ("cli", [ ("test_help_command", test_help_command env);
              ("test_version_command", test_version_command env);
              ("test_supported_formats", test_supported_formats env);
              ("test_generate_config", test_generate_config env);
              ("test_invalid_command", test_invalid_command env) ]);
    ("performance", [ ("test_performance_startup", test_performance_startup env);
                      ("test_memory_usage", test_memory_usage env) ]);
    ("quality", [ ("test_code_quality", test_code_quality env) ]) ].

(** The inner loop: every check runs, and one that raises becomes an ERROR
    result named after the method. *)
Fixpoint run_tests (category : string) (tests : list check) : M unit :=
  match tests with
  | [] => ret tt
  | (func_name, test_func) :: rest =>
      try_except (test_func ;; ret tt)
                 (fun e => add_result func_name category "ERROR") ;;
      run_tests category rest
  end.

Fixpoint run_categories (cats : list (string * list check)) : M unit :=
  match cats with
  | [] => ret tt
  | (category, tests) :: rest =>
      run_tests category tests ;; run_categories rest
  end.

Definition count_status (st : string) (rs : list TestResult) : Z :=
  len (filter (fun r => (status r =? st)%string) rs).

(** The report built from [self.results] after the loop. *)
Definition make_report (tested : list string) (rs : list TestResult) : QAReport :=
  let passed := count_status "PASS" rs in
  let failed := count_status "FAIL" rs in
  let skipped := count_status "SKIP" rs in
  let errors := count_status "ERROR" rs in
  mkQAReport (len rs) passed failed skipped errors rs
    (if ((failed =? 0) && (errors =? 0))%bool then "PASS" else "FAIL")
    (match rs with
     | _ :: _ => truediv passed (len rs)
     | [] => 0 # 1
     end)
    tested.

(** [run_all_tests(categories)]; [None] is the default argument. *)
Definition run_all_tests (env : Env) (categories : option (list string))
  : M QAReport :=
  let selected :=
    match categories with
    | Some (c :: cs) =>
        filter (fun kv => mem (fst kv) (c :: cs)) (test_categories env)
    | _ => test_categories env
    end in
  run_categories selected ;;
  fun s => (Returned (make_report (map fst selected) s), s).

(** The exit code of [main]. *)
Definition exit_code_of (report : QAReport) : Z :=
  if (overall_status report =? "PASS")%string then 0 else 1.

End QAAgent.

(** ** Persisted reports, as the JSON loader hands them over *)

Module Store.
Import Py.

(** One entry of a report's [results] list.  [name] and [status] are read by
    indexing; [average_startup] is the one key of [details] that is read. *)
Record Result : Type := mkResult {
  name : string;
  status : string;
  average_startup : option Q
}.

(** A report dictionary.  A key read with [.get] may be absent. *)
Record Report : Type := mkReport {
  total_tests : option Z;
  passed : option Z;
  failed : option Z;
  skipped : option Z;
  errors : option Z;
  results : option (list Result);
  binary_size_mb : option Q
}.

End Store.

(** ** [aggregate_qa_results.py]: the aggregator *)

Module Aggregate.
Import Py Store.

(** A dictionary from check name to count, in insertion order. *)
Definition counter : Type := list (string * Z).

Fixpoint dict_get (k : string) (d : counter) : option Z :=
  match d with
  | [] => None
  | (k', v) :: rest => if (k =? k')%string then Some v else dict_get k rest
  end.

(** [d[k] = v]: an existing key keeps its place, a new one goes last. *)
Fixpoint dict_set (k : string) (v : Z) (d : counter) : counter :=
  match d with
  | [] => [(k, v)]
  | (k', v') :: rest =>
      if (k =? k')%string then (k', v) :: rest else (k', v') :: dict_set k v rest
  end.

(** [dict(items)]. *)
Definition dict_of_items (items : list (string * Z)) : counter :=
  fold_left (fun d kv => dict_set (fst kv) (snd kv) d) items [].

(** [sorted(items, key=lambda x: x[1], reverse=True)]: Python's sort is
    stable, also under [reverse=True], so items of equal count keep their
    order.  The head of the list is placed before the first item whose count
    is not greater. *)
Fixpoint insert_desc (x : string * Z) (l : list (string * Z))
  : list (string * Z) :=
  match l with
  | [] => [x]
  | y :: rest =>
      if snd x <? snd y then y :: insert_desc x rest else x :: y :: rest
  end.

Fixpoint sorted_desc (l : list (string * Z)) : list (string * Z) :=
  match l with
  | [] => []
  | x :: rest => insert_desc x (sorted_desc rest)
  end.

Definition is_failure (result : Result) : bool :=
  mem (status result) ["FAIL"; "ERROR"].

(** The loop over the results of one report, then over the reports. *)
Definition count_results (rs : list Result) (failure_counts : counter)
  : counter :=
  fold_left
    (fun d result =>
       if is_failure result
       then dict_set (name result) (get (dict_get (name result) d) 0 + 1) d
       else d)
    rs failure_counts.

Definition count_failures (reports : list Report) : counter :=
  fold_left (fun d report => count_results (get (results report) []) d)
            reports [].

Definition startup_times (reports : list Report) : list Q :=
  flat_map
    (fun report =>
       flat_map
         (fun result =>
            if ((name result =? "Startup Performance")%string
                && (status result =? "PASS")%string)%bool
            then match average_startup result with
                 | Some t => [t]
                 | None => []
                 end
            else [])
         (get (results report) []))
    reports.

Definition binary_sizes (reports : list Report) : list Q :=
  flat_map (fun report => match binary_size_mb report with
                          | Some sz => [sz]
                          | None => []
                          end)
           reports.

Definition average (l : list Q) : Q :=
  match l with
  | [] => 0 # 1
  | _ :: _ => (sumQ l / inject_Z (len l))%Q
  end.

(** The dictionary returned for a non-empty input (the timestamp and the
    set of platforms are left out: they are not derived from the counts). *)
Record Summary : Type := mkSummary {
  status : string;
  total_runs : Z;
  total_tests : Z;
  total_passed : Z;
  total_failed : Z;
  total_skipped : Z;
  total_errors : Z;
  overall_pass_rate : Q;
  common_failures : counter;
  avg_startup_time : Q;
  avg_binary_size_mb : Q;
  startup_samples : Z;
  binary_samples : Z
}.

Inductive Aggregated : Type :=
| NoReports                (* status NO_REPORTS, total_runs 0 *)
| Runs (s : Summary).

Definition aggregate_results (reports : list Report) : Aggregated :=
  match reports with
  | [] => NoReports
  | _ :: _ =>
      let total_runs := len reports in
      let total_tests := sumZ (map (fun r => get (Store.total_tests r) 0) reports) in
      let total_passed := sumZ (map (fun r => get (passed r) 0) reports) in
      let total_failed := sumZ (map (fun r => get (failed r) 0) reports) in
      let total_skipped := sumZ (map (fun r => get (skipped r) 0) reports) in
      let total_errors := sumZ (map (fun r => get (errors r) 0) reports) in
      let overall_pass_rate := truediv total_passed (Z.max 1 total_tests) in
      let status :=
        if total_errors >? 0 then "ERROR"
        else if total_failed >? 0 then
          if Qgeb overall_pass_rate (8 # 10) then "PASS_WITH_WARNINGS"
          else "FAIL"
        else "PASS" in
      let failure_counts := count_failures reports in
      Runs (mkSummary status total_runs total_tests total_passed total_failed
              total_skipped total_errors overall_pass_rate
              (dict_of_items (sorted_desc failure_counts))
              (average (startup_times reports))
              (average (binary_sizes reports))
              (len (startup_times reports))
              (len (binary_sizes reports)))
  end.

(** [aggregated['status']]. *)
Definition status_of (a : Aggregated) : string :=
  match a with
  | NoReports => "NO_REPORTS"
  | Runs s => status s
  end.

(** [aggregated['overall_pass_rate']], for a run with reports. *)
Definition pass_rate_of (a : Aggregated) : Q :=
  match a with
  | NoReports => 0 # 1
  | Runs s => overall_pass_rate s
  end.

(** [aggregated['common_failures']], for a run with reports. *)
Definition common_failures_of (a : Aggregated) : counter :=
  match a with
  | NoReports => []
  | Runs s => common_failures s
  end.

(** The exit code of [main]. *)
Definition exit_code_of (a : Aggregated) : Z :=
  if mem (status_of a) ["PASS"; "PASS_WITH_WARNINGS"] then 0 else 1.

End Aggregate.

(** ** The arithmetic of the trend analysis *)

Module Arith.
Import Py.

(** What the trend analysis asks of its numbers. *)
Record arith : Type := mkArith {
  num : Type;
  (** the [0] a sum starts from and an absent value is replaced by *)
  zero : num;
  (** a number read from a report file *)
  of_json : Q -> num;
  (** [a / b] of two [int]s *)
  int_truediv : Z -> Z -> outcome num;
  (** [x + y] *)
  add : num -> num -> num;
  (** [x / n] of a number by an [int] *)
  div_by_int : num -> Z -> num;
  (** [x > y] and [x < y] *)
  gtb : num -> num -> bool;
  ltb : num -> num -> bool
}.

(** [sum(l)]: the items are added to [0] from left to right, each addition
    rounded (the [sum] of CPython up to 3.11; later versions compensate the
    rounding errors of the additions). *)
Definition fsum (A : arith) (l : list (num A)) : num A :=
  fold_left (add A) l (zero A).

(** *** The doubles of the interpreter *)

Definition prec : Z := 53.
Definition emax : Z := 1024.
Definition float : Type := spec_float.

(** An [int] as an operand of [/]: the integer itself, of any size; the
    quotient of two of them is rounded once. *)
Definition of_int (n : Z) : float :=
  match n with
  | Z0 => S754_zero false
  | Zpos p => S754_finite false p 0
  | Zneg p => S754_finite true p 0
  end.

(** [float(n)], the double nearest to [n]; the analysis converts counts of
    list items only, which are far below the largest double. *)
Definition float_of_int (n : Z) : float := binary_normalize prec emax n 0 false.

Definition is_inf (x : float) : bool :=
  match x with
  | S754_infinity _ => true
  | _ => false
  end.

(** [a / b] of two [int]s is the double nearest to the quotient;
    [ZeroDivisionError] when [b] is 0, [OverflowError] when the quotient is
    beyond the doubles. *)
Definition int_truediv64 (a b : Z) : outcome float :=
  if b =? 0 then Raised "ZeroDivisionError"
  else
    let q := SFdiv prec emax (of_int a) (of_int b) in
    if is_inf q then Raised "OverflowError" else Returned q.

(** A number of a JSON file is read as the double nearest to it. *)
Definition json_number (q : Q) : float :=
  SFdiv prec emax (of_int (Qnum q)) (of_int (Zpos (Qden q))).

Definition binary64 : arith :=
  mkArith float (S754_zero false) json_number int_truediv64
    (SFadd prec emax)
    (fun x n => SFdiv prec emax x (float_of_int n))
    (fun x y => SFltb y x)
    SFltb.

(** *** Numbers without rounding

    The same operations on rationals: what the analysis would compute if no
    operation rounded. *)
Definition exact : arith :=
  mkArith Q (0 # 1) (fun q => q)
    (fun a b =>
       if b =? 0 then Raised "ZeroDivisionError" else Returned (truediv a b))
    Qplus
    (fun x n => (x / inject_Z n)%Q)
    Qgtb
    Qltb.

End Arith.

(** ** [qa_dashboard.py]: the trend analysis *)

Module Dashboard.
Import Py Store Arith.

Record Trends (A : arith) : Type := mkTrends {
  trend : string;
  pass_rate_current : num A;
  pass_rate_average : num A;
  startup_time_current : num A;
  startup_time_average : num A;
  total_reports : Z
}.

Arguments mkTrends {A}.
Arguments trend {A}.
Arguments pass_rate_current {A}.
Arguments pass_rate_average {A}.
Arguments startup_time_current {A}.
Arguments startup_time_average {A}.
Arguments total_reports {A}.

(** [[r['passed'] / r['total_tests'] for r in reports if r['total_tests'] > 0]]:
    the keys are indexed, so an absent one raises [KeyError], and the
    division raises when its quotient overflows. *)
Fixpoint pass_rates (A : arith) (reports : list Report)
  : outcome (list (num A)) :=
  match reports with
  | [] => Returned []
  | r :: rest =>
      match Store.total_tests r with
      | None => Raised "KeyError: 'total_tests'"
      | Some total =>
          if total >? 0 then
            match passed r with
            | None => Raised "KeyError: 'passed'"
            | Some p =>
                match int_truediv A p total with
                | Raised e => Raised e
                | Returned rate =>
                    match pass_rates A rest with
                    | Returned rates => Returned (rate :: rates)
                    | Raised e => Raised e
                    end
                end
            end
          else pass_rates A rest
      end
  end.

(** [l[a:b]] for [0 <= a <= b]. *)
Definition slice {T : Type} (a b : nat) (l : list T) : list T :=
  firstn (b - a) (skipn a l).

Definition startup_times (A : arith) (reports : list Report)
  : list (num A) :=
  flat_map
    (fun report =>
       flat_map
         (fun result =>
            if ((name result =? "Startup Performance")%string
                && (Store.status result =? "PASS")%string)%bool
            then [of_json A (get (average_startup result) (0 # 1))]
            else [])
         (get (results report) []))
    reports.

Definition head_or_zero (A : arith) (l : list (num A)) : num A :=
  match l with
  | x :: _ => x
  | [] => zero A
  end.

Definition average_or_zero (A : arith) (l : list (num A)) : num A :=
  match l with
  | _ :: _ => div_by_int A (fsum A l) (len l)
  | [] => zero A
  end.

Definition calculate_trends (A : arith) (reports : list Report)
  : outcome (Trends A) :=
  if len reports <? 1 then
    Returned (mkTrends "insufficient_data" (zero A) (zero A) (zero A)
                (zero A) (len reports))
  else
    match pass_rates A reports with
    | Raised e => Raised e
    | Returned pass_rates =>
        let trend :=
          if len pass_rates >=? 2 then
            let recent_avg :=
              div_by_int A (fsum A (slice 0 3 pass_rates))
                (Z.min 3 (len pass_rates)) in
            let older_avg :=
              div_by_int A (fsum A (slice 3 6 pass_rates))
                (Z.max 1 (Z.min 3 (len (skipn 3 pass_rates)))) in
            if gtb A recent_avg older_avg then "improving"
            else if ltb A recent_avg older_avg then "declining"
            else "stable"
          else "stable" in
        Returned (mkTrends trend
                    (head_or_zero A pass_rates)
                    (average_or_zero A pass_rates)
                    (head_or_zero A (startup_times A reports))
                    (average_or_zero A (startup_times A reports))
                    (len reports))
    end.

End Dashboard.

(** ** [performance_benchmark.py]: measurements and their ratings *)

Module Benchmark.
Import Py.

(** The dictionary a benchmark returns.  [rating] is present exactly when the
    key ["rating"] is; the other optional keys are those [summary] reads. *)
Record Bench : Type := mkBench {
  status : string;
  rating : option string;
  average_seconds : option Q;
  size_mb : option Q;
  peak_mb : option Q;
  successful_runs : option Z
}.

(** The memory probe of [benchmark_memory_usage]. *)
Inductive memory_probe : Type :=
| PsutilMissing                      (* [import psutil] raises ImportError *)
| ProbeRaises (e : string)           (* an exception inside the outer [try] *)
| Sampled (memory_samples : list Q). (* the child ran; the samples, in MB *)

(** Everything a benchmark run observes: per run an exit code and a measured
    duration, the size of the binary, the memory probe. *)
Record Env : Type := mkEnv {
  binary_found : bool;
  startup_run : nat -> Z * Q;
  help_run : nat -> Z * Q;
  config_run : nat -> Z * bool * Q;
  binary_stat : outcome Z;
  memory : memory_probe;
  concurrent_run : nat -> Z * Q;
  total_time : Q
}.

Definition successful (run : nat -> Z * Q) (runs : nat) : list Q :=
  flat_map (fun i => let '(code, duration) := run i in
                     if code =? 0 then [duration] else [])
           (seq 0 runs).

Definition mean (times : list Q) : Q :=
  (sumQ times / inject_Z (len times))%Q.

(** The three threshold tables. *)
Definition rate_startup (avg_time : Q) : string :=
  if Qltb avg_time (1 # 10) then "EXCELLENT"
  else if Qltb avg_time (5 # 10) then "VERY_GOOD"
  else if Qltb avg_time (1 # 1) then "GOOD"
  else if Qltb avg_time (3 # 1) then "ACCEPTABLE"
  else "POOR".

Definition rate_size (size_mb : Q) : string :=
  if Qltb size_mb (5 # 1) then "EXCELLENT"
  else if Qltb size_mb (10 # 1) then "VERY_GOOD"
  else if Qltb size_mb (20 # 1) then "GOOD"
  else if Qltb size_mb (50 # 1) then "ACCEPTABLE"
  else "LARGE".

Definition rate_memory (max_memory : Q) : string :=
  if Qltb max_memory (50 # 1) then "EXCELLENT"
  else if Qltb max_memory (100 # 1) then "VERY_GOOD"
  else if Qltb max_memory (200 # 1) then "GOOD"
  else if Qltb max_memory (500 # 1) then "ACCEPTABLE"
  else "HIGH".

Definition failed_bench : Bench := mkBench "FAIL" None None None None None.

Definition benchmark_startup_time (env : Env) (runs : nat) : Bench :=
  let startup_times := successful (startup_run env) runs in
  match startup_times with
  | [] => failed_bench
  | _ :: _ =>
      let avg_time := mean startup_times in
      mkBench "PASS" (Some (rate_startup avg_time)) (Some avg_time)
              None None None
  end.

Definition benchmark_help_command (env : Env) (runs : nat) : Bench :=
  let help_times := successful (help_run env) runs in
  match help_times with
  | [] => failed_bench
  | _ :: _ => mkBench "PASS" None (Some (mean help_times)) None None None
  end.

Definition benchmark_config_generation (env : Env) (runs : nat) : Bench :=
  let config_times :=
    flat_map (fun i => let '(code, exists_, duration) := config_run env i in
                       if ((code =? 0) && exists_)%bool then [duration] else [])
             (seq 0 runs) in
  match config_times with
  | [] => failed_bench
  | _ :: _ => mkBench "PASS" None (Some (mean config_times)) None None None
  end.

Definition benchmark_binary_size (env : Env) : Bench :=
  match binary_stat env with
  | Returned size_bytes =>
      let size_mb := truediv size_bytes (1024 * 1024) in
      mkBench "PASS" (Some (rate_size size_mb)) None (Some size_mb) None None
  | Raised e => mkBench "ERROR" None None None None None
  end.

(** The same probe as the suite's, here with every exception of the outer
    [try] answered by an ERROR dictionary. *)
Definition benchmark_memory_usage (env : Env) : Bench :=
  match memory env with
  | PsutilMissing => mkBench "SKIP" None None None None None
  | ProbeRaises e => mkBench "ERROR" None None None None None
  | Sampled memory_samples =>
      match memory_samples with
      | _ :: _ =>
          let max_memory := maxQ memory_samples in
          mkBench "PASS" (Some (rate_memory max_memory)) None None
                  (Some max_memory) None
      | [] => failed_bench
      end
  end.

Definition benchmark_concurrent_commands (env : Env) (concurrent : nat)
  : Bench :=
  let successful_runs := successful (concurrent_run env) concurrent in
  match successful_runs with
  | [] => failed_bench
  | _ :: _ =>
      mkBench "PASS" None None None None (Some (len successful_runs))
  end.

Definition rating_scores : list (string * Z) :=
  [ ("EXCELLENT", 5); ("VERY_GOOD", 4); ("GOOD", 3); ("ACCEPTABLE", 2);
    ("POOR", 1); ("HIGH", 1); ("LARGE", 1) ].

(** [rating_scores.get(rating, 3)]. *)
Fixpoint scores_get (d : list (string * Z)) (rating : string) (default : Z)
  : Z :=
  match d with
  | [] => default
  | (k, v) :: rest =>
      if (rating =? k)%string then v else scores_get rest rating default
  end.

Definition score (rating : string) : Z := scores_get rating_scores rating 3.

(** The loop that collects [ratings]. *)
Definition collect_ratings (benchmarks : list (string * Bench)) : list Z :=
  flat_map
    (fun kv =>
       let benchmark := snd kv in
       match rating benchmark with
       | Some r => if (status benchmark =? "PASS")%string then [score r] else []
       | None => []
       end)
    benchmarks.

Definition band (overall_score : Q) : string :=
  if Qgeb overall_score (45 # 10) then "EXCELLENT"
  else if Qgeb overall_score (35 # 10) then "VERY_GOOD"
  else if Qgeb overall_score (25 # 10) then "GOOD"
  else if Qgeb overall_score (15 # 10) then "ACCEPTABLE"
  else "POOR".

Record Results : Type := mkResults {
  overall_rating : string;
  overall_score : Q;
  benchmarks : list (string * Bench);
  summary_startup_time : Q;
  summary_binary_size_mb : Q;
  summary_peak_memory_mb : Q;
  summary_concurrent_success_rate : Q
}.

(** [sum(ratings) / len(ratings) if ratings else 3]. *)
Definition overall_score_of (ratings : list Z) : Q :=
  match ratings with
  | _ :: _ => truediv (sumZ ratings) (len ratings)
  | [] => 3 # 1
  end.

Definition run_all_benchmarks (env : Env) : Results :=
  let startup_time := benchmark_startup_time env 10 in
  let help_command := benchmark_help_command env 5 in
  let config_generation := benchmark_config_generation env 3 in
  let binary_size := benchmark_binary_size env in
  let memory_usage := benchmark_memory_usage env in
  let concurrent_execution := benchmark_concurrent_commands env 5 in
  let benchmarks :=
    [ ("startup_time", startup_time); ("help_command", help_command);
      ("config_generation", config_generation); ("binary_size", binary_size);
      ("memory_usage", memory_usage);
      ("concurrent_execution", concurrent_execution) ] in
  let ratings := collect_ratings benchmarks in
  let overall_score := overall_score_of ratings in
  let overall_rating := band overall_score in
  mkResults overall_rating overall_score benchmarks
    (get (average_seconds startup_time) (0 # 1))
    (get (size_mb binary_size) (0 # 1))
    (get (peak_mb memory_usage) (0 # 1))
    (truediv (get (successful_runs concurrent_execution) 0) 5).

(** The exit code of [main].  The constructor raises when the binary is not
    found, and [main] answers every exception with exit code 1; the
    [SystemExit] of [sys.exit] is not an [Exception] and passes through. *)
Definition main (env : Env) : Z :=
  if negb (binary_found env) then 1
  else
    let results := run_all_benchmarks env in
    if mem (overall_rating results) ["EXCELLENT"; "VERY_GOOD"; "GOOD"]
    then 0 else 1.

End Benchmark.

(** ** [security_check.py]: the security checker *)

Module Security.
Import Py.

(** The dictionary a check returns: its status and its count of findings
    ([vulnerabilities_found], [issues_found], ...), absent on the error and
    skip paths. *)
Record Check : Type := mkCheck {
  status : string;
  found : option Z
}.

(** What [json.loads] makes of the output of [cargo audit --json]. *)
Inductive audit_json : Type :=
| JSONDecodeError
| AuditData (vulnerabilities : list string)
| NotAnObject (e : string).   (* valid JSON on which [.get] raises *)

Inductive cargo_toml : Type :=
| CargoMissing
| CargoUnreadable (e : string)
| CargoContent (content : string).

Record Env : Type := mkEnv {
  audit_exit_code : Z;
  audit_stdout : audit_json;
  cargo : cargo_toml;
  secret_matches : list string;     (* the matches [re.findall] returns *)
  rust_files : list (outcome (list string));   (* lines, per readable file *)
  is_windows : bool;
  file_modes : list (outcome Z)     (* [st_mode], per file that can be stat'ed *)
}.

Definition check_cargo_audit (env : Env) : outcome Check :=
  if audit_exit_code env =? 0 then
    match audit_stdout env with
    | AuditData vulnerabilities =>
        Returned (mkCheck (if len vulnerabilities =? 0 then "PASS" else "FAIL")
                          (Some (len vulnerabilities)))
    | JSONDecodeError => Returned (mkCheck "ERROR" None)
    | NotAnObject e => Raised e
    end
  else Returned (mkCheck "ERROR" None).

(** The three characters ["*"], quotes included. *)
Definition wildcard : string :=
  String (ascii_of_nat 34) (String "*" (String (ascii_of_nat 34) EmptyString)).

Definition check_dependencies (env : Env) : Check :=
  match cargo env with
  | CargoMissing => mkCheck "ERROR" None
  | CargoUnreadable e => mkCheck "ERROR" None
  | CargoContent content =>
      let issues :=
        ((if contains "git =" content
          then ["Git dependencies found (potential security risk)"] else [])
         ++ (if (contains "path =" content && contains ".." content)%bool
             then ["External path dependencies found"] else [])
         ++ (if contains wildcard content
             then ["Wildcard version dependencies found"] else []))%list in
      mkCheck (if len issues =? 0 then "PASS" else "WARN") (Some (len issues))
  end.

Definition check_secrets (env : Env) : Check :=
  let secrets_found := secret_matches env in
  mkCheck (if len secrets_found =? 0 then "PASS" else "FAIL")
          (Some (len secrets_found)).

Definition check_unsafe_code (env : Env) : Check :=
  let unsafe_blocks :=
    flat_map
      (fun file =>
         match file with
         | Returned lines =>
             filter (fun line => (contains "unsafe" line
                                  && contains "{" line)%bool) lines
         | Raised _ => []
         end)
      (rust_files env) in
  mkCheck (if len unsafe_blocks =? 0 then "PASS" else "WARN")
          (Some (len unsafe_blocks)).

(** [oct(st_mode)[-3:]] ends with 6 or 7: the last octal digit of the mode. *)
Definition world_writable (st_mode : Z) : bool :=
  let last := st_mode mod 8 in ((last =? 6) || (last =? 7))%bool.

Definition check_file_permissions (env : Env) : Check :=
  if is_windows env then mkCheck "SKIP" None
  else
    let suspicious_files :=
      flat_map
        (fun file =>
           match file with
           | Returned st_mode => if world_writable st_mode then [st_mode] else []
           | Raised _ => []
           end)
        (file_modes env) in
    mkCheck (if len suspicious_files =? 0 then "PASS" else "WARN")
            (Some (len suspicious_files)).

Record Results : Type := mkResults {
  overall_status : string;
  total_checks : Z;
  total_issues : Z;
  critical_issues : Z;
  checks : list (string * Check)
}.

Definition run_all_checks (env : Env) : outcome Results :=
  match check_cargo_audit env with
  | Raised e => Raised e
  | Returned cargo_audit =>
      let checks :=
        [ ("cargo_audit", cargo_audit);
          ("dependencies", check_dependencies env);
          ("secrets", check_secrets env);
          ("unsafe_code", check_unsafe_code env);
          ("file_permissions", check_file_permissions env) ] in
      let statuses := map (fun kv => status (snd kv)) checks in
      let overall_status :=
        if mem "FAIL" statuses then "FAIL"
        else if mem "ERROR" statuses then "ERROR"
        else if mem "WARN" statuses then "WARN"
        else "PASS" in
      let critical_issues :=
        len (filter (fun s => (s =? "FAIL")%string) statuses) in
      let total_issues :=
        len (filter (fun s => mem s ["FAIL"; "WARN"]) statuses) in
      Returned (mkResults overall_status (len checks) total_issues
                          critical_issues checks)
  end.

(** The exit code of [main].  An exception that leaves [run_all_checks] is
    not caught: the interpreter ends the process with exit code 1. *)
Definition main (env : Env) : Z :=
  match run_all_checks env with
  | Returned results =>
      if mem (overall_status results) ["PASS"; "WARN"] then 0 else 1
  | Raised _ => 1
  end.

End Security.

(** ** The vocabulary of the specification *)

Module Spec.
Import Py.

(** The closed set of statuses of a check result. *)
Definition suite_statuses : list string := ["PASS"; "FAIL"; "SKIP"; "ERROR"].

(** The statuses of the security checker: it also warns. *)
Definition security_statuses : list string :=
  ["PASS"; "FAIL"; "SKIP"; "ERROR"; "WARN"].

Definition valid_results (rs : list QAAgent.TestResult) : Prop :=
  Forall (fun r => In (QAAgent.status r) suite_statuses) rs.

(** A method keeps [self.results] within the closed set of statuses. *)
Definition preserves {A : Type} (m : QAAgent.M A) : Prop :=
  forall s, valid_results s -> valid_results (snd (m s)).

(** *** The aggregator *)

(** The counters a report contributes are counts. *)
Definition counts_well_formed (r : Store.Report) : Prop :=
  0 <= get (Store.failed r) 0 /\ 0 <= get (Store.errors r) 0.

Definition any_error (reports : list Store.Report) : bool :=
  existsb (fun r => negb (get (Store.errors r) 0 =? 0)) reports.

Definition any_failure (reports : list Store.Report) : bool :=
  existsb (fun r => negb (get (Store.failed r) 0 =? 0)) reports.

(** The status of an aggregation, in the priority order of the
    specification. *)
Definition status_by_priority (reports : list Store.Report)
    (overall_pass_rate : Q) : string :=
  match reports with
  | [] => "NO_REPORTS"
  | _ :: _ =>
      if any_error reports then "ERROR"
      else if any_failure reports then
        if Qle_bool (8 # 10) overall_pass_rate then "PASS_WITH_WARNINGS"
        else "FAIL"
      else "PASS"
  end.

(** Every check result of every report, in scanning order. *)
Definition scanned (reports : list Store.Report) : list Store.Result :=
  flat_map (fun r => get (Store.results r) []) reports.

Definition failed_or_errored (result : Store.Result) : bool :=
  ((Store.status result =? "FAIL")%string
   || (Store.status result =? "ERROR")%string)%bool.

(** The names of the results with status FAIL or ERROR, in scanning order. *)
Definition failing_names (reports : list Store.Report) : list string :=
  map Store.name (filter failed_or_errored (scanned reports)).

(** One more occurrence of a name in a counter. *)
Definition bump (d : Aggregate.counter) (n : string) : Aggregate.counter :=
  Aggregate.dict_set n (get (Aggregate.dict_get n d) 0 + 1) d.

Definition occurrences (n : string) (names : list string) : Z :=
  len (filter (String.eqb n) names).

(** The distinct names, each at the place it was first encountered. *)
Fixpoint first_seen (names : list string) : list string :=
  match names with
  | [] => []
  | n :: rest => n :: filter (fun m => negb (m =? n)%string) (first_seen rest)
  end.

(** The failure frequencies in discovery order. *)
Definition discovery_table (names : list string) : list (string * Z) :=
  map (fun n => (n, occurrences n names)) (first_seen names).

(** The order of the presentation: counts never increase. *)
Definition by_count_desc (x y : string * Z) : Prop := snd y <= snd x.

(** The entries of a table that have a given count, in the table's order. *)
Definition with_count (c : Z) (table : list (string * Z))
  : list (string * Z) :=
  filter (fun kv => snd kv =? c) table.

(** *** The trend analysis *)

(** The two windows of a list of pass rates, most recent first: the three
    most recent ones (or fewer), and the three after them (or fewer). *)
Definition recent_window {T : Type} (rates : list T) : list T :=
  firstn 3 rates.
Definition older_window {T : Type} (rates : list T) : list T :=
  firstn 3 (skipn 3 rates).

(** The mean of a window of pass rates as a rational; the mean of an empty
    window is 0. *)
Definition mean (window : list Q) : Q :=
  (sumQ window / inject_Z (Z.max 1 (len window)))%Q.

Definition direction (recent older : Q) : string :=
  match (recent ?= older)%Q with
  | Gt => "improving"
  | Lt => "declining"
  | Eq => "stable"
  end.

(** The pass-rate data points of a history, most recent first: the counters
    [(passed, total_tests)] of the reports that ran a test. *)
Definition data_points (reports : list Store.Report) : list (Z * Z) :=
  flat_map
    (fun r =>
       let total := get (Store.total_tests r) 0 in
       if total >? 0 then [(get (Store.passed r) 0, total)] else [])
    reports.

(** A pass rate in doubles: the double nearest to [passed / total_tests]. *)
Definition rate64 (point : Z * Z) : Arith.float :=
  SFdiv Arith.prec Arith.emax
    (Arith.of_int (fst point)) (Arith.of_int (snd point)).

(** The mean of a window in doubles: the rates are added one after the other
    to 0, most recent first, and the sum is divided by their number; each
    addition and the division round.  The mean of an empty window is 0. *)
Definition mean64 (window : list Arith.float) : Arith.float :=
  SFdiv Arith.prec Arith.emax
    (fold_left (SFadd Arith.prec Arith.emax) window (S754_zero false))
    (Arith.float_of_int (Z.max 1 (len window))).

Definition direction64 (recent older : Arith.float) : string :=
  match SFcompare recent older with
  | Some Gt => "improving"
  | Some Lt => "declining"
  | _ => "stable"
  end.

(** The direction of a history from its pass rates: stable below two data
    points, else the comparison of the means of the two windows. *)
Definition trend64 (rates : list Arith.float) : string :=
  match rates with
  | [] | [_] => "stable"
  | _ =>
      direction64 (mean64 (recent_window rates)) (mean64 (older_window rates))
  end.


(** *** The ratings *)

(** The ratings of the metrics that produced one, from what the run
    observed: startup latency when a run succeeded, binary size when the file
    could be examined, peak memory when a sample was collected. *)
Definition metric_ratings (env : Benchmark.Env) : list string :=
  (match Benchmark.successful (Benchmark.startup_run env) 10 with
   | [] => []
   | t :: ts => [Benchmark.rate_startup (Benchmark.mean (t :: ts))]
   end
   ++ match Benchmark.binary_stat env with
      | Returned size_bytes =>
          [Benchmark.rate_size (truediv size_bytes (1024 * 1024))]
      | Raised _ => []
      end
   ++ match Benchmark.memory env with
      | Benchmark.Sampled (m :: ms) => [Benchmark.rate_memory (maxQ (m :: ms))]
      | _ => []
      end)%list.

(** The ordinal score of a rating label: EXCELLENT 5, VERY_GOOD 4, GOOD 3,
    ACCEPTABLE 2, and 1 for each of POOR, HIGH and LARGE.  A label outside
    the table has no score; 0 stands for it. *)
Definition ordinal_score (rating : string) : Z :=
  if (rating =? "EXCELLENT")%string then 5
  else if (rating =? "VERY_GOOD")%string then 4
  else if (rating =? "GOOD")%string then 3
  else if (rating =? "ACCEPTABLE")%string then 2
  else if ((rating =? "POOR") || (rating =? "HIGH")
           || (rating =? "LARGE"))%string then 1
  else 0.

(** The arithmetic mean of the ordinal scores of a non-empty list of
    ratings. *)
Definition mean_score (ratings : list string) : Q :=
  truediv (sumZ (map ordinal_score ratings)) (len ratings).

(** The score bands of the overall rating. *)
Definition label (mean : Q) : string :=
  if Qle_bool (9 # 2) mean then "EXCELLENT"
  else if Qle_bool (7 # 2) mean then "VERY_GOOD"
  else if Qle_bool (5 # 2) mean then "GOOD"
  else if Qle_bool (3 # 2) mean then "ACCEPTABLE"
  else "POOR".

End Spec.

(** ** Concrete inputs *)

Module Examples.
Import Py.

Definition ok (out err : string) : QAAgent.cmd_result := QAAgent.mkCmd 0 out err.

(** A healthy binary whose memory probe collects no sample. *)
Definition quick_exit : QAAgent.Env :=
  QAAgent.mkEnv true true
    (ok "High-performance Automatic Speech Recognition Commands: stream-process stream-batch supported-formats" "")
    (ok "dattavani-asr 1.0" "")
    (ok "" "mp4 mp3 wav avi English Spanish")
    (Returned tt)
    (ok "" "") true (Returned "[google] [whisper] [processing] [logging]")
    (Returned tt)
    (QAAgent.mkCmd 2 "" "error: unknown command")
    (fun _ => (0, 1 # 20))
    (QAAgent.Sampled [])
    (ok "" "")
    true (Returned "abc") (ok "" "") (Returned "abc").

Definition failing (code : Z) : nat -> Z * Q := fun _ => (code, 1 # 100).

(** A benchmark run whose memory probe collects no sample. *)
Definition no_samples : Benchmark.Env :=
  Benchmark.mkEnv true (failing 0) (failing 0) (fun _ => (0, true, 1 # 10))
    (Returned (8 * 1024 * 1024)) (Benchmark.Sampled []) (failing 0) (1 # 50).

(** A benchmark run that rates all three metrics: 10 ms of startup, 8 MB of
    binary, 120 MB of peak memory. *)
Definition three_metrics : Benchmark.Env :=
  Benchmark.mkEnv true (failing 0) (failing 0) (fun _ => (0, true, 1 # 10))
    (Returned (8 * 1024 * 1024)) (Benchmark.Sampled [90 # 1; 120 # 1])
    (failing 0) (1 # 50).

(** A benchmark run that rates nothing: every command fails, the binary
    cannot be examined, psutil is not installed. *)
Definition unrated : Benchmark.Env :=
  Benchmark.mkEnv true (failing 1) (failing 1) (fun _ => (1, false, 1 # 10))
    (Raised "PermissionError") Benchmark.PsutilMissing (failing 1) (1 # 50).

(** A project whose manifest has a git dependency, and nothing else to
    report. *)
Definition git_dependency : Security.Env :=
  Security.mkEnv 0 (Security.AuditData [])
    (Security.CargoContent "serde = { git = 'https://example.org/serde' }")
    [] [] false [].

Definition result (name status : string) : Store.Result :=
  Store.mkResult name status None.

Definition report (total passed failed skipped errors : Z)
    (results : list Store.Result) : Store.Report :=
  Store.mkReport (Some total) (Some passed) (Some failed) (Some skipped)
    (Some errors) (Some results) None.

(** Two runs of five checks: one clean, one with a single failure. *)
Definition clean_run : Store.Report :=
  report 5 5 0 0 0
    [result "a" "PASS"; result "b" "PASS"; result "c" "PASS";
     result "d" "PASS"; result "e" "PASS"].

Definition one_failure : Store.Report :=
  report 5 4 1 0 0
    [result "a" "PASS"; result "b" "FAIL"; result "c" "PASS";
     result "d" "PASS"; result "e" "PASS"].

(** A run with one error, one failure and a skip. *)
Definition broken_run : Store.Report :=
  report 5 2 1 1 1
    [result "a" "PASS"; result "c" "ERROR"; result "b" "FAIL";
     result "d" "SKIP"; result "e" "PASS"].

(** A run in which half of the checks pass. *)
Definition half_run : Store.Report :=
  report 2 1 1 0 0 [result "a" "PASS"; result "b" "FAIL"].

End Examples.

(** ** [generate_qa_badge.py]: the status badge *)

Module Badge.
Import Py.

(** A report file as [json.load] returns it: the [timestamp] key, which may
    be absent, and the counters. *)
Record Loaded : Type := mkLoaded {
  timestamp : option string;
  report : Store.Report
}.

(** One turn of the loop of [load_latest_qa_report]; a file that cannot be
    opened or parsed is passed over.  [timestamp > latest_time] compares
    strings in lexicographic order. *)
Definition keep_latest (acc : option Loaded * string) (file : outcome Loaded)
  : option Loaded * string :=
  let '(latest_report, latest_time) := acc in
  match file with
  | Returned report =>
      let timestamp := get (timestamp report) "" in
      if String.ltb latest_time timestamp then (Some report, timestamp)
      else (latest_report, latest_time)
  | Raised _ => (latest_report, latest_time)
  end.

(** [load_latest_qa_report]: [files] are the report files found under the
    directory, in the order of the scan; [None] is the empty dictionary. *)
Definition load_latest_qa_report (dir_exists : bool)
    (files : list (outcome Loaded)) : option Loaded :=
  if negb dir_exists then None
  else fst (fold_left keep_latest files (None, "")).

(** The status and the pass rate [main] derives from the latest report. *)
Definition badge_status (report : Store.Report) : string * Q :=
  let total_tests := get (Store.total_tests report) 0 in
  let passed := get (Store.passed report) 0 in
  let failed := get (Store.failed report) 0 in
  let errors := get (Store.errors report) 0 in
  if total_tests =? 0 then ("UNKNOWN", 0 # 1)
  else
    let pass_rate := truediv passed total_tests in
    (if errors >? 0 then "ERROR"
     else if failed >? 0 then
       if Qgeb pass_rate (8 # 10) then "PASS_WITH_WARNINGS" else "FAIL"
     else "PASS",
     pass_rate).

(** The status [main] hands to [generate_badge_svg]. *)
Definition main_status (latest : option Loaded) : string :=
  match latest with
  | None => "UNKNOWN"
  | Some l => fst (badge_status (report l))
  end.

End Badge.

(** ** Further vocabulary *)

Module Terms.
Import Py.





(** A double whose sign bit is clear (or that is not a number): it is not
    below zero. *)
Definition sign_clear (x : Arith.float) : Prop :=
  match x with
  | S754_zero s | S754_infinity s | S754_finite s _ _ => s = false
  | S754_nan => True
  end.

(** A report that has the two counters the trend analysis indexes. *)
Definition has_counters (r : Store.Report) : Prop :=
  Store.total_tests r <> None /\ Store.passed r <> None.

Definition known_categories : list string :=
  ["build"; "cli"; "performance"; "quality"].



(** The successful startup measurements of the suite's startup check. *)
Definition suite_startup_times (env : QAAgent.Env) : list Q :=
  flat_map (fun i => let '(code, duration) := QAAgent.startup_run env i in
                     if code =? 0 then [duration] else [])
           (seq 0 5).

(** The counters of a report are all present and add up. *)
Definition consistent (r : Store.Report) : Prop :=
  exists t p f s e,
    Store.total_tests r = Some t /\ Store.passed r = Some p
    /\ Store.failed r = Some f /\ Store.skipped r = Some s
    /\ Store.errors r = Some e
    /\ 0 <= p /\ 0 <= f /\ 0 <= s /\ 0 <= e /\ p + f + s + e = t.

(** The readable files of a scan. *)
Definition readable (files : list (outcome Badge.Loaded))
  : list Badge.Loaded :=
  flat_map (fun file => match file with
                        | Returned l => [l]
                        | Raised _ => []
                        end) files.

Definition stamp (l : Badge.Loaded) : string := get (Badge.timestamp l) "".

(** What the scan for the latest report holds after the files [seen]:
    nothing while no timestamp was met, else a report of [seen] whose
    timestamp no other exceeds. *)
Definition newest (seen : list Badge.Loaded)
    (acc : option Badge.Loaded * string) : Prop :=
  match fst acc with
  | None => snd acc = "" /\ Forall (fun l => stamp l = "") seen
  | Some l =>
      snd acc = stamp l /\ In l seen /\ stamp l <> ""
      /\ Forall (fun l' => String.leb (stamp l') (stamp l) = true) seen
  end.

End Terms.

(** ** Further inputs *)

Module Samples.
Import Py.


(** A healthy binary that uses 120 MB at its peak. *)
Definition sampled : QAAgent.Env :=
  QAAgent.mkEnv true true
    (QAAgent.help_run Examples.quick_exit)
    (QAAgent.version_run Examples.quick_exit)
    (QAAgent.formats_run Examples.quick_exit)
    (Returned tt)
    (QAAgent.config_run Examples.quick_exit) true
    (QAAgent.config_content Examples.quick_exit)
    (Returned tt)
    (QAAgent.invalid_run Examples.quick_exit)
    (QAAgent.startup_run Examples.quick_exit)
    (QAAgent.Sampled [90 # 1; 120 # 1])
    (QAAgent.clippy_run Examples.quick_exit)
    true (Returned "abc") (QAAgent.rebuild_run Examples.quick_exit)
    (Returned "abc").

(** A report that lacks its counters. *)
Definition bare : Store.Report :=
  Store.mkReport None None None None None None None.



Definition older : Badge.Loaded :=
  Badge.mkLoaded (Some "2024-01-01T10:00:00") Examples.one_failure.

Definition newer : Badge.Loaded :=
  Badge.mkLoaded (Some "2024-03-05T08:30:00") Examples.clean_run.

Definition unstamped : Badge.Loaded :=
  Badge.mkLoaded None Examples.broken_run.

End Samples.

(** * The suite *)

Section Suite.
Import Py QAAgent Spec.

Lemma add_result_preserves (n c st : string) :
  In st suite_statuses -> preserves (add_result n c st).
Proof.
  intros Hst s Hs. unfold add_result; simpl.
  apply Forall_app; split; [exact Hs|].
  constructor; [exact Hst | constructor].
Qed.

Lemma ret_preserves {A : Type} (a : A) : preserves (ret a).
Proof. intros s Hs; exact Hs. Qed.

Lemma raise_preserves {A : Type} (e : string) : preserves (@raise A e).
Proof. intros s Hs; exact Hs. Qed.

Lemma perform_preserves {A : Type} (o : outcome A) : preserves (perform o).
Proof. intros s Hs; exact Hs. Qed.

Lemma bind_preserves {A B : Type} (m : M A) (k : A -> M B) :
  preserves m -> (forall a, preserves (k a)) -> preserves (bind m k).
Proof.
  intros Hm Hk s Hs. unfold bind.
  specialize (Hm s Hs). destruct (m s) as [[a|e] s']; simpl in *.
  - apply Hk; exact Hm.
  - exact Hm.
Qed.

Lemma try_except_preserves {A : Type} (m : M A) (h : string -> M A) :
  preserves m -> (forall e, preserves (h e)) -> preserves (try_except m h).
Proof.
  intros Hm Hh s Hs. unfold try_except.
  specialize (Hm s Hs). destruct (m s) as [[a|e] s']; simpl in *.
  - exact Hm.
  - apply Hh; exact Hm.
Qed.

Lemma try_finally_preserves {A : Type} (body : M A) (cleanup : M unit) :
  preserves body -> preserves cleanup -> preserves (try_finally body cleanup).
Proof.
  intros Hb Hc s Hs. unfold try_finally.
  specialize (Hb s Hs). destruct (body s) as [r s']. cbn [snd] in Hb.
  specialize (Hc s' Hb). destruct (cleanup s') as [[u|e] s'']; exact Hc.
Qed.

Lemma in_suite_PASS : In "PASS" suite_statuses.
Proof. simpl; auto. Qed.
Lemma in_suite_FAIL : In "FAIL" suite_statuses.
Proof. simpl; auto. Qed.
Lemma in_suite_SKIP : In "SKIP" suite_statuses.
Proof. simpl; auto 6. Qed.
Lemma in_suite_ERROR : In "ERROR" suite_statuses.
Proof. simpl; auto 6. Qed.

Create HintDb suite.
#[local] Hint Resolve add_result_preserves ret_preserves raise_preserves
  perform_preserves bind_preserves try_except_preserves
  in_suite_PASS in_suite_FAIL in_suite_SKIP in_suite_ERROR : suite.

(** Splits every conditional of a check, then closes each path with the
    lemmas on the monad. *)
Ltac split_paths :=
  repeat match goal with
         | |- preserves (if ?b then _ else _) => destruct b
         | |- preserves (match ?x with _ => _ end) => destruct x
         | |- preserves (let _ := _ in _) => cbv zeta
         | |- In (if ?b then _ else _) _ => destruct b
         end.

Ltac check_preserves :=
  intros; cbv zeta; split_paths;
  repeat (first [ apply bind_preserves; [| intros ] | progress split_paths ]);
  auto with suite.

Lemma test_binary_exists_preserves env : preserves (test_binary_exists env).
Proof. unfold test_binary_exists; check_preserves. Qed.

Lemma test_help_command_preserves env : preserves (test_help_command env).
Proof. unfold test_help_command; check_preserves. Qed.

Lemma test_version_command_preserves env :
  preserves (test_version_command env).
Proof. unfold test_version_command; check_preserves. Qed.

Lemma test_supported_formats_preserves env :
  preserves (test_supported_formats env).
Proof. unfold test_supported_formats; check_preserves. Qed.

Lemma test_generate_config_preserves env :
  preserves (test_generate_config env).
Proof.
  unfold test_generate_config.
  apply bind_preserves; [apply perform_preserves|intros _].
  apply try_finally_preserves; [check_preserves | apply perform_preserves].
Qed.

Lemma test_invalid_command_preserves env :
  preserves (test_invalid_command env).
Proof. unfold test_invalid_command; check_preserves. Qed.

Lemma test_performance_startup_preserves env :
  preserves (test_performance_startup env).
Proof.
  unfold test_performance_startup; check_preserves;
    apply add_result_preserves; split_paths; auto with suite.
Qed.

Lemma test_memory_usage_preserves env : preserves (test_memory_usage env).
Proof.
  unfold test_memory_usage; check_preserves;
    apply add_result_preserves; split_paths; auto with suite.
Qed.

Lemma test_code_quality_preserves env : preserves (test_code_quality env).
Proof. unfold test_code_quality; check_preserves. Qed.

Lemma test_build_reproducibility_preserves env :
  preserves (test_build_reproducibility env).
Proof. unfold test_build_reproducibility; check_preserves. Qed.

Lemma registry_preserves env :
  Forall (fun kv => Forall (fun c : check => preserves (snd c)) (snd kv))
         (test_categories env).
Proof.
  unfold test_categories.
  repeat (constructor; simpl);
    auto using test_binary_exists_preserves, test_help_command_preserves,
      test_version_command_preserves, test_supported_formats_preserves,
      test_generate_config_preserves, test_invalid_command_preserves,
      test_performance_startup_preserves, test_memory_usage_preserves,
      test_code_quality_preserves, test_build_reproducibility_preserves.
Qed.

(** The loop over the checks of a category never raises: a check that does is
    turned into an ERROR result, and the next one runs. *)
Lemma run_tests_total category tests s :
  Forall (fun c : check => preserves (snd c)) tests ->
  exists s', run_tests category tests s = (Returned tt, s')
             /\ (valid_results s -> valid_results s').
Proof.
  intros Htests. revert s.
  induction Htests as [|[func_name test_func] rest Hc _ IH]; intros s.
  - exists s. split; [reflexivity | auto].
  - simpl in Hc. cbn [run_tests]. unfold bind at 1, try_except, bind at 1, ret.
    pose proof (Hc s) as Hs.
    destruct (test_func s) as [[b|e] s1]; simpl in Hs.
    + destruct (IH s1) as (s' & Heq & Hv). exists s'. split; auto.
    + unfold add_result at 1.
      destruct (IH (s1 ++ [mkTestResult func_name category "ERROR"])%list)
        as (s' & Heq & Hv).
      exists s'. split; [exact Heq|].
      intros H. apply Hv. apply Forall_app. split; [exact (Hs H)|].
      constructor; [apply in_suite_ERROR | constructor].
Qed.

Lemma run_categories_total cats s :
  Forall (fun kv => Forall (fun c : check => preserves (snd c)) (snd kv)) cats ->
  exists s', run_categories cats s = (Returned tt, s')
             /\ (valid_results s -> valid_results s').
Proof.
  intros Hcats. revert s.
  induction Hcats as [|[category tests] rest Hc _ IH]; intros s.
  - exists s. split; [reflexivity | auto].
  - simpl in Hc. cbn [run_categories]. unfold bind.
    destruct (run_tests_total category tests s Hc) as (s1 & Heq1 & Hv1).
    rewrite Heq1.
    destruct (IH s1) as (s' & Heq & Hv). exists s'. split; auto.
Qed.

(** A suite run always returns a report, and the report is the one built by
    [make_report] from the results the agent holds at the end. *)
Lemma run_all_tests_total env categories s :
  exists tested s',
    run_all_tests env categories s = (Returned (make_report tested s'), s')
    /\ (valid_results s -> valid_results s').
Proof.
  unfold run_all_tests.
  set (selected := match categories with
                   | Some (c :: cs) => _
                   | _ => _
                   end).
  assert (Hsel : Forall (fun kv => Forall (fun c : check => preserves (snd c))
                                          (snd kv)) selected).
  { subst selected. pose proof (registry_preserves env) as Hreg.
    destruct categories as [[|c cs]|]; auto.
    rewrite Forall_forall in *. intros kv Hin. apply filter_In in Hin.
    apply Hreg, Hin. }
  destruct (run_categories_total selected s Hsel) as (s' & Heq & Hv).
  exists (map fst selected), s'. unfold bind. rewrite Heq. split; auto.
Qed.

Lemma count_status_le st rs : 0 <= count_status st rs <= len rs.
Proof.
  unfold count_status, len. split; [lia|].
  apply inj_le. apply filter_length_le.
Qed.

(** The four counters split the results once each is in the closed set. *)
Lemma count_status_partition rs :
  valid_results rs ->
  count_status "PASS" rs + count_status "FAIL" rs
  + count_status "SKIP" rs + count_status "ERROR" rs = len rs.
Proof.
  unfold count_status, len.
  induction 1 as [|r rs Hr _ IH]; [reflexivity|].
  cbn [filter List.length]. rewrite Nat2Z.inj_succ.
  simpl in Hr.
  destruct Hr as [<-|[<-|[<-|[<-|[]]]]]; cbn [String.eqb Ascii.eqb Bool.eqb];
    cbn [List.length]; rewrite ?Nat2Z.inj_succ; lia.
Qed.

Lemma truediv_unit_interval p n :
  0 <= p <= n -> 0 < n -> (0 <= truediv p n <= 1)%Q.
Proof.
  intros [Hp Hn] Hpos. unfold truediv.
  assert (Hq : (0 < inject_Z n)%Q) by (rewrite (Zlt_Qlt 0 n) in Hpos; exact Hpos).
  split.
  - apply Qle_shift_div_l; [exact Hq|].
    rewrite Qmult_0_l. rewrite (Zle_Qle 0 p) in Hp. exact Hp.
  - apply Qle_shift_div_r; [exact Hq|].
    rewrite Qmult_1_l. rewrite (Zle_Qle p n) in Hn. exact Hn.
Qed.

End Suite.

Section SuiteReports.
Import Py QAAgent Spec.

(** C3.  Every report of a suite run, whichever checks pass, fail, skip or
    raise: the run returns a report; its four counters add up to
    [total_tests]; its pass rate lies between 0 and 1; and the pass rate is 0
    when no check ran. *)
Theorem report_counters_sum_to_total
  (env : Env) (categories : option (list string)) :
  exists report s',
    run_all_tests env categories [] = (Returned report, s')
    /\ passed report + failed report + skipped report + errors report
       = total_tests report
    /\ (0 <= pass_rate report <= 1)%Q
    /\ (total_tests report = 0 -> (pass_rate report == 0)%Q).
Proof.
  destruct (run_all_tests_total env categories []) as (tested & s' & Heq & Hv).
  exists (make_report tested s'), s'.
  split; [exact Heq|]. cbn [make_report passed failed skipped errors
                            total_tests pass_rate].
  split; [apply count_status_partition, Hv; constructor|].
  destruct s' as [|r rs].
  - repeat split; try discriminate; reflexivity.
  - assert (Hlen : 0 < len (r :: rs))
      by (unfold len; cbn [List.length]; lia).
    split; [|intros H0; rewrite H0 in Hlen; lia].
    apply truediv_unit_interval; [apply count_status_le | exact Hlen].
Qed.

(** C4.  The report of a suite run has overall status PASS exactly when its
    failed count and its errors count are both 0; the skipped count plays no
    part. *)
Theorem overall_status_pass_iff_clean
  (env : Env) (categories : option (list string)) :
  exists report s',
    run_all_tests env categories [] = (Returned report, s')
    /\ (overall_status report = "PASS"
        <-> failed report = 0 /\ errors report = 0).
Proof.
  destruct (run_all_tests_total env categories []) as (tested & s' & Heq & _).
  exists (make_report tested s'), s'.
  split; [exact Heq|]. cbn [make_report overall_status failed errors].
  destruct (count_status "FAIL" s' =? 0) eqn:Hf;
    destruct (count_status "ERROR" s' =? 0) eqn:He; cbn [andb];
    rewrite ?Z.eqb_eq, ?Z.eqb_neq in *; split;
    try discriminate; try tauto; intros [? ?]; congruence.
Qed.

End SuiteReports.

(** * The security checker *)

Section SecurityChecks.
Import Py Spec.

Lemma in_security (st : string) :
  In st suite_statuses -> In st security_statuses.
Proof. unfold suite_statuses, security_statuses; simpl; tauto. Qed.

Lemma in_security_WARN : In "WARN" security_statuses.
Proof. simpl; tauto. Qed.

Lemma check_cargo_audit_status env c :
  Security.check_cargo_audit env = Returned c ->
  In (Security.status c) security_statuses.
Proof.
  unfold Security.check_cargo_audit.
  destruct (Security.audit_exit_code env =? 0);
    [destruct (Security.audit_stdout env) as [|v|e];
     [| destruct (len v =? 0) |] |];
    intros H; inversion H; simpl; tauto.
Qed.

Lemma check_dependencies_status env :
  In (Security.status (Security.check_dependencies env)) security_statuses.
Proof.
  unfold Security.check_dependencies.
  destruct (Security.cargo env); cbn [Security.status];
    try match goal with |- context [if ?b then _ else _] => destruct b end;
    simpl; tauto.
Qed.

Lemma check_secrets_status env :
  In (Security.status (Security.check_secrets env)) security_statuses.
Proof.
  unfold Security.check_secrets; cbn [Security.status].
  match goal with |- context [if ?b then _ else _] => destruct b end;
    simpl; tauto.
Qed.

Lemma check_unsafe_code_status env :
  In (Security.status (Security.check_unsafe_code env)) security_statuses.
Proof.
  unfold Security.check_unsafe_code; cbn [Security.status].
  match goal with |- context [if ?b then _ else _] => destruct b end;
    simpl; tauto.
Qed.

Lemma check_file_permissions_status env :
  In (Security.status (Security.check_file_permissions env)) security_statuses.
Proof.
  unfold Security.check_file_permissions.
  destruct (Security.is_windows env); cbn [Security.status];
    try match goal with |- context [if ?b then _ else _] => destruct b end;
    simpl; tauto.
Qed.

(** C8, as the code has it.  Every check result of a suite run, the ERROR
    results of raising checks included, has a status among PASS, FAIL, SKIP
    and ERROR; every check result of the security checker has a status among
    PASS, FAIL, SKIP, ERROR and WARN. *)
Theorem check_statuses_closed :
  (forall env categories,
     exists report s',
       QAAgent.run_all_tests env categories [] = (Returned report, s')
       /\ Forall (fun r => In (QAAgent.status r) suite_statuses)
                 (QAAgent.results report))
  /\ (forall env results,
        Security.run_all_checks env = Returned results ->
        Forall (fun kv => In (Security.status (snd kv)) security_statuses)
               (Security.checks results)).
Proof.
  split.
  - intros env categories.
    destruct (run_all_tests_total env categories []) as (tested & s' & Heq & Hv).
    exists (QAAgent.make_report tested s'), s'.
    split; [exact Heq|]. apply Hv. constructor.
  - intros env results. unfold Security.run_all_checks.
    destruct (Security.check_cargo_audit env) as [c|e] eqn:Haudit;
      [|discriminate].
    intros H; inversion H; subst; clear H. cbn [Security.checks].
    repeat (apply Forall_cons; [cbn [snd]|]); [| | | | |apply Forall_nil];
      eauto using check_cargo_audit_status, check_dependencies_status,
        check_secrets_status, check_unsafe_code_status,
        check_file_permissions_status.
Qed.

Lemma check_statuses_closed_witness :
  exists results,
    Security.run_all_checks Examples.git_dependency = Returned results
    /\ Forall (fun kv => In (Security.status (snd kv)) security_statuses)
              (Security.checks results).
Proof.
  eexists. split; [reflexivity|].
  apply (proj2 check_statuses_closed Examples.git_dependency). reflexivity.
Defined.

(** C8, as stated, fails on the security checker: a manifest with a git
    dependency makes [check_dependencies] answer WARN, which is none of PASS,
    FAIL, SKIP and ERROR. *)
Lemma dependency_check_warns :
  Security.status (Security.check_dependencies Examples.git_dependency)
  = "WARN"
  /\ ~ In (Security.status (Security.check_dependencies Examples.git_dependency))
          suite_statuses.
Proof.
  split; [reflexivity|].
  vm_compute. intros [H|[H|[H|[H|[]]]]]; discriminate.
Qed.

End SecurityChecks.

(** * The memory checks *)

Section MemoryChecks.
Import Py.

(** C2.  With the child started and no sample collected, the suite's memory
    check records SKIP, and the benchmark's memory check answers FAIL. *)
Theorem memory_check_without_samples :
  (forall env s,
     QAAgent.memory env = QAAgent.Sampled [] ->
     QAAgent.test_memory_usage env s
     = (Returned true,
        (s ++ [QAAgent.mkTestResult "Memory Usage" "performance" "SKIP"])%list))
  /\ (forall env,
        Benchmark.memory env = Benchmark.Sampled [] ->
        Benchmark.status (Benchmark.benchmark_memory_usage env) = "FAIL").
Proof.
  split.
  - intros env s H. unfold QAAgent.test_memory_usage. rewrite H. reflexivity.
  - intros env H. unfold Benchmark.benchmark_memory_usage. rewrite H.
    reflexivity.
Qed.

Lemma memory_check_without_samples_witness :
  QAAgent.test_memory_usage Examples.quick_exit []
  = (Returned true, [QAAgent.mkTestResult "Memory Usage" "performance" "SKIP"])
  /\ Benchmark.status (Benchmark.benchmark_memory_usage Examples.no_samples)
     = "FAIL".
Proof.
  split.
  - apply (proj1 memory_check_without_samples Examples.quick_exit []).
    reflexivity.
  - apply (proj2 memory_check_without_samples Examples.no_samples).
    reflexivity.
Defined.

End MemoryChecks.

(** * The ratings *)

Section Ratings.
Import Py Benchmark Spec.

Lemma Qltb_spec (a b : Q) : reflect (a < b)%Q (Qltb a b).
Proof.
  unfold Qltb. destruct (Qle_bool b a) eqn:H; constructor.
  - apply Qle_bool_iff in H. apply Qle_not_lt, H.
  - apply Qnot_le_lt. intros Hle. apply Qle_bool_iff in Hle. congruence.
Qed.

Lemma Qle_bool_spec (a b : Q) : reflect (a <= b)%Q (Qle_bool a b).
Proof.
  destruct (Qle_bool a b) eqn:H; constructor.
  - apply Qle_bool_iff, H.
  - intros Hle. apply Qle_bool_iff in Hle. congruence.
Qed.

(** Walks a threshold table for two values at once; a pair of branches that
    the order of the values excludes is closed by linear arithmetic, the
    others by comparing the two scores. *)
Ltac walk_thresholds :=
  repeat match goal with
         | |- context [Qltb ?a ?b] => destruct (Qltb_spec a b)
         end;
  first [ exfalso; lra | apply Z.leb_le; reflexivity ].

Lemma rate_startup_monotone (v1 v2 : Q) :
  (v1 < v2)%Q -> score (rate_startup v2) <= score (rate_startup v1).
Proof. intros H. unfold rate_startup. walk_thresholds. Qed.

Lemma rate_size_monotone (v1 v2 : Q) :
  (v1 < v2)%Q -> score (rate_size v2) <= score (rate_size v1).
Proof. intros H. unfold rate_size. walk_thresholds. Qed.

Lemma rate_memory_monotone (v1 v2 : Q) :
  (v1 < v2)%Q -> score (rate_memory v2) <= score (rate_memory v1).
Proof. intros H. unfold rate_memory. walk_thresholds. Qed.

(** C6.  For startup latency, binary size and peak memory alike, a lower
    value never receives a worse rating: the ordinal score of the rating
    (EXCELLENT 5, VERY_GOOD 4, GOOD 3, ACCEPTABLE 2, POOR/HIGH/LARGE 1) of
    the lower value is at least that of the higher value. *)
Theorem ratings_monotone (v1 v2 : Q) :
  (v1 < v2)%Q ->
  score (rate_startup v2) <= score (rate_startup v1)
  /\ score (rate_size v2) <= score (rate_size v1)
  /\ score (rate_memory v2) <= score (rate_memory v1).
Proof.
  intros H. repeat split.
  - apply rate_startup_monotone, H.
  - apply rate_size_monotone, H.
  - apply rate_memory_monotone, H.
Qed.

Lemma ratings_monotone_witness :
  score (rate_startup (3 # 1)) <= score (rate_startup (1 # 20))
  /\ score (rate_size (3 # 1)) <= score (rate_size (1 # 20))
  /\ score (rate_memory (3 # 1)) <= score (rate_memory (1 # 20)).
Proof. apply (ratings_monotone (1 # 20) (3 # 1)). reflexivity. Defined.

End Ratings.

(** * The overall benchmark rating *)

Section OverallRating.
Import Py Benchmark Spec.

Lemma help_command_unrated env runs :
  rating (benchmark_help_command env runs) = None.
Proof.
  unfold benchmark_help_command.
  destruct (successful (help_run env) runs); reflexivity.
Qed.

Lemma config_generation_unrated env runs :
  rating (benchmark_config_generation env runs) = None.
Proof.
  unfold benchmark_config_generation.
  match goal with |- context [match ?l with _ => _ end] => destruct l end;
    reflexivity.
Qed.

Lemma concurrent_commands_unrated env n :
  rating (benchmark_concurrent_commands env n) = None.
Proof.
  unfold benchmark_concurrent_commands.
  destruct (successful (concurrent_run env) n); reflexivity.
Qed.

(** The ratings the loop collects are the scores of the rated metrics: a
    benchmark that carries a rating also has status PASS. *)
Lemma collect_ratings_run env :
  collect_ratings (benchmarks (run_all_benchmarks env))
  = map score (metric_ratings env).
Proof.
  unfold run_all_benchmarks, metric_ratings.
  cbn [benchmarks collect_ratings flat_map snd].
  rewrite help_command_unrated, config_generation_unrated,
    concurrent_commands_unrated.
  unfold benchmark_startup_time, benchmark_binary_size,
    benchmark_memory_usage.
  destruct (successful (startup_run env) 10) as [|t ts];
    destruct (binary_stat env) as [size_bytes|e];
    destruct (memory env) as [|e'|[|m ms]]; reflexivity.
Qed.

(** On the labels the three rated metrics produce, the table of the code
    gives the ordinal scores. *)
Lemma rate_startup_score (avg_time : Q) :
  score (rate_startup avg_time) = ordinal_score (rate_startup avg_time).
Proof.
  unfold rate_startup.
  repeat match goal with
         | |- context [if ?b then _ else _] => destruct b
         end; reflexivity.
Qed.

Lemma rate_size_score (size_mb : Q) :
  score (rate_size size_mb) = ordinal_score (rate_size size_mb).
Proof.
  unfold rate_size.
  repeat match goal with
         | |- context [if ?b then _ else _] => destruct b
         end; reflexivity.
Qed.

Lemma rate_memory_score (max_memory : Q) :
  score (rate_memory max_memory) = ordinal_score (rate_memory max_memory).
Proof.
  unfold rate_memory.
  repeat match goal with
         | |- context [if ?b then _ else _] => destruct b
         end; reflexivity.
Qed.

Lemma metric_ratings_scores env :
  map score (metric_ratings env) = map ordinal_score (metric_ratings env).
Proof.
  unfold metric_ratings.
  destruct (successful (startup_run env) 10) as [|t ts];
    destruct (binary_stat env) as [size_bytes|e];
    destruct (memory env) as [|e'|[|m ms]];
    cbn [map app];
    rewrite ?rate_startup_score, ?rate_size_score, ?rate_memory_score;
    reflexivity.
Qed.

Lemma band_label (m : Q) : band m = label m.
Proof.
  unfold band, label, Qgeb.
  repeat match goal with
         | |- context [Qle_bool ?a ?b] => destruct (Qle_bool_spec a b)
         end;
  first [ reflexivity | exfalso; lra ].
Qed.

Lemma len_map {A B : Type} (f : A -> B) (l : list A) : len (map f l) = len l.
Proof. unfold len. rewrite length_map. reflexivity. Qed.

(** C7.  When at least one metric produced a rating, the overall score of a
    benchmark run is the arithmetic mean of the ordinal scores of the rated
    metrics (EXCELLENT 5, VERY_GOOD 4, GOOD 3, ACCEPTABLE 2, POOR, HIGH and
    LARGE 1), and the overall rating is the label of the band that mean falls
    in (at least 4.5 EXCELLENT, 3.5 VERY_GOOD, 2.5 GOOD, 1.5 ACCEPTABLE, else
    POOR).  A metric without successful samples has no rating and takes no
    part in the mean. *)
Theorem overall_rating_is_banded_mean (env : Env) :
  metric_ratings env <> [] ->
  overall_score (run_all_benchmarks env) = mean_score (metric_ratings env)
  /\ overall_rating (run_all_benchmarks env)
     = label (mean_score (metric_ratings env)).
Proof.
  intros Hrated.
  pose proof (collect_ratings_run env) as Hc.
  assert (Hscore : overall_score (run_all_benchmarks env)
                   = mean_score (metric_ratings env)).
  { change (overall_score (run_all_benchmarks env))
      with (overall_score_of
              (collect_ratings (benchmarks (run_all_benchmarks env)))).
    rewrite Hc. unfold overall_score_of, mean_score.
    rewrite <- (metric_ratings_scores env).
    destruct (metric_ratings env) as [|r rs]; [congruence|].
    cbn [map]. rewrite <- (len_map score (r :: rs)). reflexivity. }
  split; [exact Hscore|].
  rewrite <- Hscore, <- band_label. reflexivity.
Qed.

Lemma overall_rating_is_banded_mean_witness :
  overall_score (run_all_benchmarks Examples.three_metrics)
  = mean_score (metric_ratings Examples.three_metrics)
  /\ overall_rating (run_all_benchmarks Examples.three_metrics)
     = label (mean_score (metric_ratings Examples.three_metrics)).
Proof.
  apply (overall_rating_is_banded_mean Examples.three_metrics).
  vm_compute. discriminate.
Defined.




End OverallRating.

(** * The aggregator *)

Section AggregateStatus.
Import Py Store Aggregate Spec.

Lemma sumZ_nonneg {A : Type} (f : A -> Z) (l : list A) :
  Forall (fun r => 0 <= f r) l -> 0 <= sumZ (map f l).
Proof.
  induction 1 as [|r l Hr _ IH]; cbn [map sumZ fold_right]; [lia|].
  fold (sumZ (map f l)). lia.
Qed.

(** A sum of counts is positive exactly when one of them is not zero. *)
Lemma sumZ_positive_exists {A : Type} (f : A -> Z) (l : list A) :
  Forall (fun r => 0 <= f r) l ->
  (sumZ (map f l) >? 0) = existsb (fun r => negb (f r =? 0)) l.
Proof.
  induction 1 as [|r l Hr Hl IH]; [reflexivity|].
  pose proof (sumZ_nonneg f l Hl) as Hsum.
  cbn [map sumZ fold_right existsb]. fold (sumZ (map f l)).
  rewrite <- IH.
  destruct (Z.eqb_spec (f r) 0) as [H0|H0]; cbn [negb orb].
  - rewrite H0. reflexivity.
  - rewrite Z.gtb_ltb. apply Z.ltb_lt. lia.
Qed.

(** C1.  The overall status of an aggregation follows the priority order: no
    report gives NO_REPORTS; else a report with a non-zero error count gives
    ERROR; else a report with a non-zero failure count gives
    PASS_WITH_WARNINGS when the overall pass rate is at least 0.8 and FAIL
    otherwise; else PASS.  Two reports of 5 checks, one all PASS and one with
    exactly 1 FAIL and no error, have overall pass rate 9/10 and status
    PASS_WITH_WARNINGS. *)
Theorem aggregate_status_priority :
  (forall reports,
     Forall counts_well_formed reports ->
     status_of (aggregate_results reports)
     = status_by_priority reports (pass_rate_of (aggregate_results reports)))
  /\ (forall results1 results2 size1 size2,
        let all_pass :=
          mkReport (Some 5) (Some 5) (Some 0) (Some 0) (Some 0)
                   results1 size1 in
        let one_fail :=
          mkReport (Some 5) (Some 4) (Some 1) (Some 0) (Some 0)
                   results2 size2 in
        (pass_rate_of (aggregate_results [all_pass; one_fail]) == 9 # 10)%Q
        /\ status_of (aggregate_results [all_pass; one_fail])
           = "PASS_WITH_WARNINGS").
Proof.
  split.
  - intros reports Hwf. destruct reports as [|r rest]; [reflexivity|].
    set (reports := r :: rest) in *.
    assert (Herr : Forall (fun r => 0 <= get (errors r) 0) reports)
      by (eapply Forall_impl; [|exact Hwf]; intros a [_ H]; exact H).
    assert (Hfail : Forall (fun r => 0 <= get (failed r) 0) reports)
      by (eapply Forall_impl; [|exact Hwf]; intros a [H _]; exact H).
    unfold status_by_priority, any_error, any_failure.
    rewrite <- (sumZ_positive_exists _ reports Herr).
    rewrite <- (sumZ_positive_exists _ reports Hfail).
    reflexivity.
  - intros results1 results2 size1 size2 all_pass one_fail.
    split; reflexivity.
Qed.

Lemma aggregate_status_priority_witness :
  status_of (aggregate_results [Examples.clean_run; Examples.broken_run])
  = "ERROR".
Proof.
  rewrite (proj1 aggregate_status_priority
             [Examples.clean_run; Examples.broken_run]).
  - reflexivity.
  - repeat constructor; simpl; lia.
Defined.

End AggregateStatus.

Section FailureTable.
Import Py Store Aggregate Spec.

Lemma is_failure_spec (result : Result) :
  is_failure result = failed_or_errored result.
Proof.
  unfold is_failure, failed_or_errored, mem. cbn [existsb].
  rewrite orb_false_r. reflexivity.
Qed.

(** The two nested loops are one pass over the failing names. *)
Lemma count_results_names (rs : list Result) (d : counter) :
  count_results rs d
  = fold_left bump (map name (filter failed_or_errored rs)) d.
Proof.
  unfold count_results. revert d.
  induction rs as [|r rs IH]; intros d; [reflexivity|].
  cbn [fold_left filter]. rewrite IH, is_failure_spec.
  destruct (failed_or_errored r); reflexivity.
Qed.

Lemma count_failures_names (reports : list Report) :
  count_failures reports = fold_left bump (failing_names reports) [].
Proof.
  unfold count_failures, failing_names, scanned.
  generalize (@nil (string * Z)) as d.
  induction reports as [|r rest IH]; intros d; [reflexivity|].
  cbn [fold_left flat_map].
  rewrite IH, count_results_names, filter_app, map_app, fold_left_app.
  reflexivity.
Qed.

Lemma mem_In (n : string) (l : list string) : mem n l = true <-> In n l.
Proof.
  unfold mem. rewrite existsb_exists. split.
  - intros (x & Hin & Heq). apply String.eqb_eq in Heq. subst. exact Hin.
  - intros Hin. exists n. split; [exact Hin | apply String.eqb_refl].
Qed.

Lemma In_first_seen (n : string) (l : list string) :
  In n (first_seen l) <-> In n l.
Proof.
  induction l as [|a l IH]; [reflexivity|].
  cbn [first_seen In]. rewrite filter_In, IH.
  destruct (String.eqb_spec n a) as [->|Hne]; cbn [negb].
  - split; auto.
  - split; [intros [H|[H _]]; auto | intros [H|H]; auto].
Qed.

Lemma NoDup_first_seen (l : list string) : NoDup (first_seen l).
Proof.
  induction l as [|a l IH]; cbn [first_seen]; constructor.
  - rewrite filter_In. intros [_ H]. rewrite String.eqb_refl in H.
    discriminate.
  - apply NoDup_filter, IH.
Qed.

Lemma filter_absent (a : string) (l : list string) :
  ~ In a l -> filter (fun m => negb (m =? a)%string) l = l.
Proof.
  induction l as [|b l IH]; intros Hnot; [reflexivity|].
  cbn [filter]. destruct (String.eqb_spec b a) as [->|Hne]; cbn [negb].
  - exfalso. apply Hnot. left. reflexivity.
  - rewrite IH; [reflexivity|]. intros H. apply Hnot. right. exact H.
Qed.

(** A name met once more is new to the order only when it was never met. *)
Lemma first_seen_snoc (l : list string) (n : string) :
  first_seen (l ++ [n])
  = (first_seen l ++ (if mem n l then [] else [n]))%list.
Proof.
  induction l as [|a l IH]; [reflexivity|].
  cbn [app first_seen]. rewrite IH, filter_app. f_equal. f_equal.
  unfold mem at 2. cbn [existsb]. fold (mem n l).
  destruct (String.eqb_spec n a) as [->|Hne]; cbn [orb].
  - destruct (mem a l); [reflexivity|].
    cbn [filter]. rewrite String.eqb_refl. reflexivity.
  - destruct (mem n l); [reflexivity|].
    cbn [filter]. destruct (String.eqb_spec n a); [contradiction|].
    reflexivity.
Qed.

Lemma occurrences_snoc (m n : string) (l : list string) :
  occurrences m (l ++ [n])
  = occurrences m l + (if (m =? n)%string then 1 else 0).
Proof.
  unfold occurrences, len. rewrite filter_app, length_app, Nat2Z.inj_add.
  cbn [filter]. destruct (m =? n)%string; reflexivity.
Qed.

Lemma occurrences_absent (n : string) (l : list string) :
  ~ In n l -> occurrences n l = 0.
Proof.
  unfold occurrences, len. induction l as [|a l IH]; intros Hnot;
    [reflexivity|].
  cbn [filter]. destruct (String.eqb_spec n a) as [->|Hne].
  - exfalso. apply Hnot. left. reflexivity.
  - apply IH. intros H. apply Hnot. right. exact H.
Qed.

Lemma occurrences_present (n : string) (l : list string) :
  In n l -> 0 < occurrences n l.
Proof.
  unfold occurrences, len. induction l as [|a l IH]; intros Hin;
    [destruct Hin|].
  cbn [filter]. destruct (String.eqb_spec n a) as [->|Hne].
  - cbn [List.length]. lia.
  - destruct Hin as [->|Hin]; [contradiction | apply IH, Hin].
Qed.

(** Counting one more occurrence of [n] in the table of [l], restricted to
    any keys without repetition, gives the table of [l ++ [n]]. *)
Lemma bump_table (l : list string) (n : string) (ks : list string) :
  NoDup ks ->
  (~ In n ks -> occurrences n l = 0) ->
  bump (map (fun m => (m, occurrences m l)) ks) n
  = map (fun m => (m, occurrences m (l ++ [n])))
        (ks ++ (if mem n ks then [] else [n])).
Proof.
  unfold bump.
  induction ks as [|k ks IH]; intros Hnd Habs.
  - cbn. rewrite occurrences_snoc, String.eqb_refl, Habs by tauto.
    reflexivity.
  - inversion Hnd as [|? ? Hk Hnd']; subst.
    unfold mem. cbn [map dict_get dict_set existsb app]. fold (mem n ks).
    destruct (String.eqb_spec n k) as [->|Hne]; cbn [orb get].
    + rewrite app_nil_r, occurrences_snoc, String.eqb_refl. f_equal.
      apply map_ext_in. intros m Hm. rewrite occurrences_snoc.
      destruct (String.eqb_spec m k) as [->|_]; [contradiction|].
      rewrite Z.add_0_r. reflexivity.
    + rewrite IH; [| exact Hnd' | intros H; apply Habs; intros [E|E];
                                   [congruence | contradiction]].
      rewrite (occurrences_snoc k). destruct (String.eqb_spec k n) as [E|_];
        [congruence|].
      rewrite Z.add_0_r. reflexivity.
Qed.

(** The counter the scan builds is the table of frequencies in discovery
    order. *)
Lemma fold_bump_discovery (names : list string) :
  fold_left bump names [] = discovery_table names.
Proof.
  induction names as [|n names IH] using rev_ind; [reflexivity|].
  rewrite fold_left_app. cbn [fold_left]. rewrite IH.
  unfold discovery_table. rewrite first_seen_snoc.
  rewrite bump_table.
  - f_equal. f_equal.
    destruct (mem n (first_seen names)) eqn:H1; destruct (mem n names) eqn:H2;
      try reflexivity; exfalso.
    + apply (proj1 (mem_In n (first_seen names))) in H1.
      apply (proj1 (In_first_seen n names)) in H1.
      apply (proj2 (mem_In n names)) in H1. congruence.
    + apply (proj1 (mem_In n names)) in H2. apply (proj2 (In_first_seen n names)) in H2.
      apply (proj2 (mem_In n (first_seen names))) in H2. congruence.
  - apply NoDup_first_seen.
  - intros H. apply occurrences_absent. rewrite <- In_first_seen. exact H.
Qed.

Lemma insert_desc_perm (x : string * Z) (l : list (string * Z)) :
  Permutation (insert_desc x l) (x :: l).
Proof.
  induction l as [|y l IH]; cbn [insert_desc]; [reflexivity|].
  destruct (snd x <? snd y); [|reflexivity].
  rewrite IH. apply perm_swap.
Qed.

Lemma sorted_desc_perm (l : list (string * Z)) :
  Permutation (sorted_desc l) l.
Proof.
  induction l as [|x l IH]; cbn [sorted_desc]; [reflexivity|].
  rewrite insert_desc_perm, IH. reflexivity.
Qed.

Lemma insert_desc_sorted (x : string * Z) (l : list (string * Z)) :
  StronglySorted by_count_desc l ->
  StronglySorted by_count_desc (insert_desc x l).
Proof.
  induction 1 as [|y l Hl IH Hy]; cbn [insert_desc].
  - repeat constructor.
  - destruct (Z.ltb_spec (snd x) (snd y)) as [Hlt|Hge].
    + constructor; [exact IH|].
      eapply Permutation_Forall; [symmetry; apply insert_desc_perm|].
      constructor; [unfold by_count_desc; lia | exact Hy].
    + constructor; [constructor; assumption|].
      constructor; [exact Hge|].
      eapply Forall_impl; [|exact Hy].
      unfold by_count_desc. intros z Hz. lia.
Qed.

Lemma sorted_desc_sorted (l : list (string * Z)) :
  StronglySorted by_count_desc (sorted_desc l).
Proof.
  induction l as [|x l IH]; cbn [sorted_desc]; [constructor|].
  apply insert_desc_sorted, IH.
Qed.

(** The sort is stable: an item only moves past items of a greater count. *)
Lemma insert_desc_stable (c : Z) (x : string * Z) (l : list (string * Z)) :
  with_count c (insert_desc x l) = with_count c (x :: l).
Proof.
  unfold with_count.
  induction l as [|y l IH]; cbn [insert_desc]; [reflexivity|].
  destruct (Z.ltb_spec (snd x) (snd y)) as [Hlt|Hge]; [|reflexivity].
  cbn [filter] in *. rewrite IH.
  destruct (Z.eqb_spec (snd x) c), (Z.eqb_spec (snd y) c);
    try reflexivity; lia.
Qed.

Lemma sorted_desc_stable (c : Z) (l : list (string * Z)) :
  with_count c (sorted_desc l) = with_count c l.
Proof.
  induction l as [|x l IH]; cbn [sorted_desc]; [reflexivity|].
  rewrite insert_desc_stable. unfold with_count in *. cbn [filter].
  rewrite IH. reflexivity.
Qed.

Lemma dict_set_fresh (k : string) (v : Z) (d : counter) :
  ~ In k (map fst d) -> dict_set k v d = (d ++ [(k, v)])%list.
Proof.
  induction d as [|[k' v'] d IH]; intros Hnot; [reflexivity|].
  cbn [dict_set app]. cbn [map fst In] in Hnot.
  destruct (String.eqb_spec k k') as [->|Hne]; [tauto|].
  rewrite IH by tauto. reflexivity.
Qed.

Lemma fold_dict_set_append (items : list (string * Z)) (d : counter) :
  NoDup (map fst (d ++ items)) ->
  fold_left (fun d kv => dict_set (fst kv) (snd kv) d) items d
  = (d ++ items)%list.
Proof.
  revert d. induction items as [|[k v] items IH]; intros d Hnd.
  - rewrite app_nil_r. reflexivity.
  - cbn [fold_left fst snd].
    rewrite dict_set_fresh.
    + rewrite IH; rewrite <- app_assoc; [reflexivity | exact Hnd].
    + rewrite map_app in Hnd. cbn [map fst] in Hnd.
      apply NoDup_remove_2 in Hnd. intros H. apply Hnd.
      apply in_or_app. left. exact H.
Qed.

(** Building a dictionary from items of distinct keys keeps the items. *)
Lemma dict_of_items_distinct (items : list (string * Z)) :
  NoDup (map fst items) -> dict_of_items items = items.
Proof. intros H. unfold dict_of_items. apply fold_dict_set_append, H. Qed.

Lemma dict_get_absent (k : string) (d : counter) :
  ~ In k (map fst d) -> dict_get k d = None.
Proof.
  induction d as [|[k' v'] d IH]; intros Hnot; [reflexivity|].
  cbn [dict_get]. cbn [map fst In] in Hnot.
  destruct (String.eqb_spec k k') as [->|Hne]; [tauto|].
  apply IH. tauto.
Qed.

Lemma dict_get_present (k : string) (v : Z) (d : counter) :
  NoDup (map fst d) -> In (k, v) d -> dict_get k d = Some v.
Proof.
  induction d as [|[k' v'] d IH]; intros Hnd Hin; [destruct Hin|].
  cbn [dict_get]. inversion Hnd as [|? ? Hk Hnd']; subst.
  destruct Hin as [Heq|Hin].
  - inversion Heq; subst. rewrite String.eqb_refl. reflexivity.
  - destruct (String.eqb_spec k k') as [->|Hne]; [|apply IH; assumption].
    exfalso. apply Hk. apply (in_map fst) in Hin. exact Hin.
Qed.

Lemma discovery_table_keys (names : list string) :
  map fst (discovery_table names) = first_seen names.
Proof.
  unfold discovery_table. rewrite map_map. cbn [fst]. apply map_id.
Qed.

(** The table the aggregator presents is the sorted table of discovery. *)
Lemma common_failures_sorted_discovery (r : Report) (rest : list Report) :
  common_failures_of (aggregate_results (r :: rest))
  = sorted_desc (discovery_table (failing_names (r :: rest))).
Proof.
  cbn [aggregate_results common_failures_of common_failures].
  rewrite count_failures_names, fold_bump_discovery.
  apply dict_of_items_distinct.
  eapply Permutation_NoDup;
    [symmetry; apply Permutation_map, sorted_desc_perm|].
  rewrite discovery_table_keys. apply NoDup_first_seen.
Qed.

(** C9.  The failure-frequency table of an aggregation maps each check name
    to the number of check results named so whose status is FAIL or ERROR,
    over all reports (a name without such a result has no entry); it is
    sorted by descending count; and the names of equal count stand in the
    order in which they were first encountered. *)
Theorem common_failures_table (r : Report) (rest : list Report) :
  let names := failing_names (r :: rest) in
  let table := common_failures_of (aggregate_results (r :: rest)) in
  (forall n,
     dict_get n table
     = if occurrences n names =? 0 then None
       else Some (occurrences n names))
  /\ StronglySorted by_count_desc table
  /\ (forall c, with_count c table = with_count c (discovery_table names)).
Proof.
  intros names table. subst table.
  rewrite common_failures_sorted_discovery. fold names.
  pose proof (sorted_desc_perm (discovery_table names)) as Hperm.
  split; [|split].
  - intros n. destruct (in_dec string_dec n names) as [Hin|Hnot].
    + pose proof (occurrences_present n names Hin) as Hpos.
      destruct (Z.eqb_spec (occurrences n names) 0) as [H0|_]; [lia|].
      apply dict_get_present.
      * eapply Permutation_NoDup;
          [symmetry; apply Permutation_map, Hperm|].
        rewrite discovery_table_keys. apply NoDup_first_seen.
      * eapply Permutation_in; [symmetry; exact Hperm|].
        unfold discovery_table.
        apply (in_map (fun m => (m, occurrences m names))).
        apply In_first_seen, Hin.
    + rewrite (occurrences_absent n names Hnot). cbn [Z.eqb].
      apply dict_get_absent. intros H. apply Hnot.
      apply (Permutation_in _ (Permutation_map fst Hperm)) in H.
      rewrite discovery_table_keys in H. apply In_first_seen, H.
  - apply sorted_desc_sorted.
  - intros c. apply sorted_desc_stable.
Qed.

End FailureTable.

(** * The trend analysis *)

Section Trend.
Import Py Store Arith Dashboard Spec Terms.

Lemma len_firstn_3 {A : Type} (l : list A) :
  len (firstn 3 l) = Z.min 3 (len l).
Proof. unfold len. rewrite length_firstn, Nat2Z.inj_min. reflexivity. Qed.

Lemma nonempty_not_short {A : Type} (l : list A) :
  l <> [] -> (len l <? 1) = false.
Proof.
  intros Hne. destruct l as [|x l]; [congruence|].
  apply Z.ltb_ge. unfold len. cbn [List.length]. lia.
Qed.

Lemma two_or_more {A : Type} (a b : A) (l : list A) :
  (len (a :: b :: l) >=? 2) = true.
Proof.
  rewrite Z.geb_leb. apply Z.leb_le. unfold len. cbn [List.length]. lia.
Qed.

(** *** Without rounding *)

Lemma fold_sumQ (l : list Q) (a : Q) :
  (fold_left Qplus l a == a + sumQ l)%Q.
Proof.
  revert a. induction l as [|q l IH]; intros a; cbn [fold_left].
  - unfold sumQ. cbn [fold_right]. lra.
  - rewrite IH. unfold sumQ. cbn [fold_right]. lra.
Qed.

Lemma fsum_exact (l : list Q) : (fsum exact l == sumQ l)%Q.
Proof. unfold fsum. cbn [add zero exact]. rewrite fold_sumQ. lra. Qed.

Lemma compare_direction (recent older : Q) :
  (if Qgtb recent older then "improving"
   else if Qltb recent older then "declining"
   else "stable")
  = direction recent older.
Proof.
  unfold direction, Qgtb.
  destruct (Qle_bool_spec recent older) as [Hle|Hgt]; cbn [negb];
    [destruct (Qltb_spec recent older) as [Hlt|Hge]|];
    destruct (recent ?= older)%Q eqn:Hcmp; try reflexivity; exfalso;
    first [ apply Qeq_alt in Hcmp | apply Qlt_alt in Hcmp
          | apply Qgt_alt in Hcmp ];
    lra.
Qed.

Lemma direction_compat (r r' o o' : Q) :
  (r == r')%Q -> (o == o')%Q -> direction r o = direction r' o'.
Proof. intros Hr Ho. unfold direction. rewrite Hr, Ho. reflexivity. Qed.

(** With two pass rates or more, the comparison of the code is the
    comparison of the means of the two windows. *)
Lemma windows_means (rates : list Q) :
  2 <= len rates ->
  (if gtb exact
        (div_by_int exact (fsum exact (slice 0 3 rates))
           (Z.min 3 (len rates)))
        (div_by_int exact (fsum exact (slice 3 6 rates))
           (Z.max 1 (Z.min 3 (len (skipn 3 rates)))))
   then "improving"
   else if ltb exact
             (div_by_int exact (fsum exact (slice 0 3 rates))
                (Z.min 3 (len rates)))
             (div_by_int exact (fsum exact (slice 3 6 rates))
                (Z.max 1 (Z.min 3 (len (skipn 3 rates)))))
        then "declining"
        else "stable")
  = direction (mean (recent_window rates)) (mean (older_window rates)).
Proof.
  intros Hlen. cbn [gtb ltb div_by_int exact].
  rewrite compare_direction. apply direction_compat.
  - unfold mean, recent_window, slice. cbn [Nat.sub skipn].
    rewrite len_firstn_3, (Z.max_r 1) by lia.
    rewrite fsum_exact. reflexivity.
  - unfold mean, older_window, slice. cbn [Nat.sub].
    rewrite len_firstn_3, fsum_exact. reflexivity.
Qed.

Lemma pass_rates_nonempty (A : arith) (reports : list Report)
    (rates : list (num A)) :
  pass_rates A reports = Returned rates -> rates <> [] ->
  (len reports <? 1) = false.
Proof.
  intros Hpr Hne. apply nonempty_not_short. intros ->.
  cbn in Hpr. inversion Hpr. congruence.
Qed.

(** *** In doubles *)

(** Comparing two doubles the other way round gives the opposite answer. *)
Lemma SFcompare_antisym (a b : float) :
  SFcompare b a = option_map CompOpp (SFcompare a b).
Proof.
  destruct a as [sa|sa| |sa ma ea], b as [sb|sb| |sb mb eb]; cbn;
    try reflexivity; try (destruct sa; reflexivity);
    try (destruct sb; reflexivity); try (destruct sa, sb; reflexivity).
  change (PosDef.Pos.compare_cont Eq) with Pos.compare.
  rewrite (Z.compare_antisym ea eb), (Pos.compare_antisym ma mb).
  destruct sa, sb; cbn; try reflexivity;
    destruct (ea ?= eb); cbn; try reflexivity;
    destruct (ma ?= mb)%positive; reflexivity.
Qed.

Lemma compare_direction64 (recent older : float) :
  (if gtb binary64 recent older then "improving"
   else if ltb binary64 recent older then "declining"
   else "stable")
  = direction64 recent older.
Proof.
  cbn [gtb ltb binary64]. unfold direction64, SFltb.
  rewrite (SFcompare_antisym recent older).
  destruct (SFcompare recent older) as [[ | | ]|]; reflexivity.
Qed.

(** The comparison of the code on a list of pass rates is the direction of
    the list. *)
Lemma windows_means64 (rates : list float) :
  (if len rates >=? 2 then
     if gtb binary64
          (div_by_int binary64 (fsum binary64 (slice 0 3 rates))
             (Z.min 3 (len rates)))
          (div_by_int binary64 (fsum binary64 (slice 3 6 rates))
             (Z.max 1 (Z.min 3 (len (skipn 3 rates)))))
     then "improving"
     else if ltb binary64
               (div_by_int binary64 (fsum binary64 (slice 0 3 rates))
                  (Z.min 3 (len rates)))
               (div_by_int binary64 (fsum binary64 (slice 3 6 rates))
                  (Z.max 1 (Z.min 3 (len (skipn 3 rates)))))
          then "declining"
          else "stable"
   else "stable")
  = trend64 rates.
Proof.
  destruct rates as [|r1 [|r2 rest]]; [reflexivity | reflexivity |].
  rewrite two_or_more, compare_direction64.
  unfold trend64, mean64, recent_window, older_window, slice, fsum.
  cbn [Nat.sub div_by_int add zero binary64].
  rewrite !len_firstn_3.
  change (skipn 0 (r1 :: r2 :: rest)) with (r1 :: r2 :: rest).
  rewrite (Z.max_r 1 (Z.min 3 (len (r1 :: r2 :: rest))))
    by (unfold len; cbn [List.length]; lia).
  reflexivity.
Qed.

(** The list comprehension computes the rates of the data points, or raises
    when one of them overflows. *)
Lemma pass_rates64 (reports : list Report) :
  Forall has_counters reports ->
  pass_rates binary64 reports
  = if forallb (fun x => negb (is_inf x)) (map rate64 (data_points reports))
    then Returned (map rate64 (data_points reports))
    else Raised "OverflowError".
Proof.
  induction 1 as [|r rest [Ht Hp] _ IH]; [reflexivity|].
  cbn [pass_rates data_points flat_map].
  fold (data_points rest).
  destruct (Store.total_tests r) as [total|]; [|congruence].
  destruct (passed r) as [p|]; [|congruence].
  cbn [get]. destruct (Z.gtb_spec total 0) as [Hpos|Hle].
  - cbn [app map forallb int_truediv binary64]. unfold int_truediv64.
    replace (total =? 0) with false by (symmetry; apply Z.eqb_neq; lia).
    change (SFdiv prec emax (of_int p) (of_int total))
      with (rate64 (p, total)).
    destruct (is_inf (rate64 (p, total))); cbn [negb andb]; [reflexivity|].
    rewrite IH.
    destruct (forallb _ (map rate64 (data_points rest))); reflexivity.
  - cbn [app]. exact IH.
Qed.

Lemma forallb_finite (rates : list float) :
  forallb (fun x => negb (is_inf x)) rates = true
  <-> Forall (fun x => is_inf x = false) rates.
Proof.
  rewrite forallb_forall, Forall_forall.
  split; intros H x Hin; specialize (H x Hin);
    destruct (is_inf x); cbn in *; congruence.
Qed.

(** A history whose reports have their counters and whose pass rates are
    within the doubles has the direction of its pass rates. *)
Lemma trend_of_history (reports : list Report) :
  reports <> [] ->
  Forall has_counters reports ->
  Forall (fun x => is_inf x = false) (map rate64 (data_points reports)) ->
  exists t, calculate_trends binary64 reports = Returned t
            /\ trend t = trend64 (map rate64 (data_points reports)).
Proof.
  intros Hne Hkeys Hfin. unfold calculate_trends.
  rewrite (nonempty_not_short reports Hne), (pass_rates64 reports Hkeys).
  rewrite (proj2 (forallb_finite _) Hfin).
  eexists. split; [reflexivity|]. cbn [trend].
  apply windows_means64.
Qed.





End Trend.

(** * The engine of the suite *)

Section Engine.
Import Py QAAgent Spec Terms.

































End Engine.

Section SuiteVerdicts.
Import Py QAAgent Spec Terms.

Lemma mem_false (k : string) (l : list string) :
  mem k l = false <-> ~ In k l.
Proof.
  rewrite <- mem_In. destruct (mem k l); split; congruence.
Qed.

(** X3.  The method [run_all_tests], called with a selection that names no
    registered category, runs no check: the report it returns is empty and
    its overall status is PASS.  (The command line never makes such a call:
    its parser accepts the four registered names only.) *)
Theorem unknown_categories_pass_vacuously
  (env : Env) (c : string) (cs : list string) :
  (forall k, In k (c :: cs) -> ~ In k known_categories) ->
  exists report,
    run_all_tests env (Some (c :: cs)) [] = (Returned report, [])
    /\ results report = []
    /\ total_tests report = 0
    /\ categories_tested report = []
    /\ overall_status report = "PASS".
Proof.
  intros Hunknown.
  assert (Hmem : forall k, In k known_categories -> mem k (c :: cs) = false).
  { intros k Hk. apply mem_false. intros Hin. exact (Hunknown k Hin Hk). }
  unfold run_all_tests, test_categories. cbn [filter fst].
  rewrite !Hmem by (unfold known_categories; cbn [In]; auto 6).
  eexists. split; [reflexivity|]. repeat split.
Qed.

Lemma unknown_categories_pass_vacuously_witness :
  exists report,
    run_all_tests Examples.quick_exit (Some ["security"]) []
    = (Returned report, [])
    /\ results report = []
    /\ total_tests report = 0
    /\ categories_tested report = []
    /\ overall_status report = "PASS".
Proof.
  apply (unknown_categories_pass_vacuously Examples.quick_exit "security" []).
  intros k [<-|[]]. unfold known_categories. cbn [In].
  intros [H|[H|[H|[H|[]]]]]; discriminate.
Defined.


Lemma rate_startup_poor (avg : Q) :
  Benchmark.rate_startup avg <> "POOR" <-> (avg < 3 # 1)%Q.
Proof.
  unfold Benchmark.rate_startup.
  repeat match goal with
         | |- context [Qltb ?a ?b] => destruct (Qltb_spec a b)
         end;
    split; intros H; try discriminate; try lra; congruence.
Qed.

(** X5.  The suite's startup check passes exactly when a run succeeded and
    the mean of the successful runs is below 3 seconds, that is when the
    benchmark's threshold table rates that mean better than POOR; with no
    successful run it fails. *)
Theorem startup_check_agrees_with_rating (env : Env) (s : list TestResult) :
  exists st,
    test_performance_startup env s
    = (Returned (st =? "PASS")%string,
       (s ++ [mkTestResult "Startup Performance" "performance" st])%list)
    /\ (st = "PASS" \/ st = "FAIL")
    /\ (st = "PASS"
        <-> exists t ts,
              suite_startup_times env = t :: ts
              /\ (Benchmark.mean (t :: ts) < 3 # 1)%Q)
    /\ (st = "PASS"
        <-> exists t ts,
              suite_startup_times env = t :: ts
              /\ Benchmark.rate_startup (Benchmark.mean (t :: ts)) <> "POOR").
Proof.
  assert (Hmain : exists st,
    test_performance_startup env s
    = (Returned (st =? "PASS")%string,
       (s ++ [mkTestResult "Startup Performance" "performance" st])%list)
    /\ (st = "PASS" \/ st = "FAIL")
    /\ (st = "PASS"
        <-> exists t ts,
              suite_startup_times env = t :: ts
              /\ (Benchmark.mean (t :: ts) < 3 # 1)%Q)).
  { unfold test_performance_startup. fold (suite_startup_times env).
    destruct (suite_startup_times env) as [|t ts].
    - exists "FAIL". split; [reflexivity|]. split; [auto|].
      split; [discriminate | intros (t & ts & H & _); discriminate].
    - cbv zeta. fold (Benchmark.mean (t :: ts)).
      destruct (Qltb_spec (Benchmark.mean (t :: ts)) (1 # 1)) as [H1|H1];
        [|destruct (Qltb_spec (Benchmark.mean (t :: ts)) (3 # 1)) as [H3|H3]].
      + exists "PASS". split; [reflexivity|]. split; [auto|].
        split; [intros _; exists t, ts; split; [reflexivity | lra]
               | reflexivity].
      + exists "PASS". split; [reflexivity|]. split; [auto|].
        split; [intros _; exists t, ts; split; [reflexivity | exact H3]
               | reflexivity].
      + exists "FAIL". split; [reflexivity|]. split; [auto|].
        split; [discriminate|].
        intros (t' & ts' & Heq & Hlt). inversion Heq; subst. contradiction. }
  destruct Hmain as (st & Hrun & Hst & Hiff).
  exists st. repeat split; auto; try apply Hiff.
  - intros H. apply Hiff in H. destruct H as (t & ts & Heq & Hlt).
    exists t, ts. split; [exact Heq | apply rate_startup_poor, Hlt].
  - intros (t & ts & Heq & Hrate). apply Hiff. exists t, ts.
    split; [exact Heq | apply rate_startup_poor, Hrate].
Qed.

Lemma fold_Qmax_below (c : Q) (t : list Q) (x : Q) :
  (fold_left Qmax t x < c)%Q <-> (x < c)%Q /\ Forall (fun m => (m < c)%Q) t.
Proof.
  revert x. induction t as [|a t IH]; intros x; cbn [fold_left].
  - split; [intros H; split; [exact H | constructor] | intros [H _]; exact H].
  - rewrite IH, Q.max_lub_lt_iff. split.
    + intros [[Hx Ha] Ht]. split; [exact Hx | constructor; assumption].
    + intros [Hx Hat]. inversion Hat; subst. repeat split; assumption.
Qed.

Lemma rate_memory_high (peak : Q) :
  Benchmark.rate_memory peak <> "HIGH" <-> (peak < 500 # 1)%Q.
Proof.
  unfold Benchmark.rate_memory.
  repeat match goal with
         | |- context [Qltb ?a ?b] => destruct (Qltb_spec a b)
         end;
    split; intros H; try discriminate; try lra; congruence.
Qed.

(** X6.  With samples collected, the suite's memory check passes exactly
    when every sample is below 500 MB, that is when the benchmark's table
    rates the peak better than HIGH; otherwise it fails. *)
Theorem memory_check_agrees_with_rating
  (env : Env) (s : list TestResult) (m : Q) (ms : list Q) :
  memory env = Sampled (m :: ms) ->
  exists st,
    test_memory_usage env s
    = (Returned (st =? "PASS")%string,
       (s ++ [mkTestResult "Memory Usage" "performance" st])%list)
    /\ (st = "PASS" \/ st = "FAIL")
    /\ (st = "PASS" <-> Forall (fun x => (x < 500 # 1)%Q) (m :: ms))
    /\ (st = "PASS" <-> Benchmark.rate_memory (maxQ (m :: ms)) <> "HIGH").
Proof.
  intros Hmem.
  assert (Hpeak : (maxQ (m :: ms) < 500 # 1)%Q
                  <-> Forall (fun x => (x < 500 # 1)%Q) (m :: ms)).
  { unfold maxQ. rewrite fold_Qmax_below. split.
    - intros [H1 H2]. constructor; assumption.
    - intros H. inversion H; subst. split; assumption. }
  pose proof (rate_memory_high (maxQ (m :: ms))) as Hrate.
  unfold test_memory_usage. rewrite Hmem. cbv zeta.
  destruct (Qltb_spec (maxQ (m :: ms)) (100 # 1)) as [H1|H1];
    [|destruct (Qltb_spec (maxQ (m :: ms)) (500 # 1)) as [H5|H5]].
  - assert (H5 : (maxQ (m :: ms) < 500 # 1)%Q) by lra.
    exists "PASS". split; [reflexivity|]. split; [auto|].
    split; (split; [intros _; tauto | reflexivity]).
  - exists "PASS". split; [reflexivity|]. split; [auto|].
    split; (split; [intros _; tauto | reflexivity]).
  - exists "FAIL". split; [reflexivity|]. split; [auto|].
    split; (split; [discriminate | intros H; exfalso; tauto]).
Qed.

Lemma memory_check_agrees_with_rating_witness :
  exists st,
    test_memory_usage Samples.sampled []
    = (Returned (st =? "PASS")%string,
       [mkTestResult "Memory Usage" "performance" st])
    /\ (st = "PASS" \/ st = "FAIL")
    /\ (st = "PASS" <-> Forall (fun x => (x < 500 # 1)%Q) [90 # 1; 120 # 1])
    /\ (st = "PASS"
        <-> Benchmark.rate_memory (maxQ [90 # 1; 120 # 1]) <> "HIGH").
Proof.
  apply (memory_check_agrees_with_rating Samples.sampled [] (90 # 1)
           [120 # 1]).
  reflexivity.
Defined.

End SuiteVerdicts.

(** * More on the aggregator *)

Section AggregateLaws.
Import Py Store Aggregate Spec Terms.

(** X7.  For reports whose counters are counts, the aggregation step exits
    with code 0 exactly when there is a report, no report has an error, and
    either no report has a failure or the overall pass rate is at least 0.8;
    with no report at all it exits with code 1. *)
Theorem aggregate_exit_code (reports : list Report) :
  Forall counts_well_formed reports ->
  (Aggregate.exit_code_of (aggregate_results reports) = 0
   <-> reports <> []
       /\ any_error reports = false
       /\ (any_failure reports = false
           \/ (8 # 10 <= pass_rate_of (aggregate_results reports))%Q)).
Proof.
  intros Hwf. destruct reports as [|r rest].
  - cbn. split; [discriminate | intros [H _]; congruence].
  - set (reports := r :: rest) in *.
    assert (Herr : Forall (fun r => 0 <= get (errors r) 0) reports)
      by (eapply Forall_impl; [|exact Hwf]; intros a [_ H]; exact H).
    assert (Hfail : Forall (fun r => 0 <= get (failed r) 0) reports)
      by (eapply Forall_impl; [|exact Hwf]; intros a [H _]; exact H).
    unfold any_error, any_failure.
    rewrite <- (sumZ_positive_exists _ reports Herr).
    rewrite <- (sumZ_positive_exists _ reports Hfail).
    unfold Aggregate.exit_code_of.
    subst reports.
    cbn [aggregate_results status_of Aggregate.status pass_rate_of
         overall_pass_rate].
    set (rate := truediv _ _).
    destruct (sumZ (map (fun r => get (errors r) 0) (r :: rest)) >? 0);
      [split; [discriminate | intros (_ & H & _); discriminate]|].
    destruct (sumZ (map (fun r => get (failed r) 0) (r :: rest)) >? 0).
    + unfold Qgeb. destruct (Qle_bool_spec (8 # 10) rate) as [Hle|Hlt].
      * split; [intros _; repeat split; [discriminate | auto]
               | reflexivity].
      * split; [discriminate|].
        intros (_ & _ & [H|H]); [discriminate | contradiction].
    + split; [intros _; repeat split; [discriminate | auto] | reflexivity].
Qed.

Lemma aggregate_exit_code_witness :
  Aggregate.exit_code_of
    (aggregate_results [Examples.clean_run; Examples.one_failure]) = 0.
Proof.
  apply (aggregate_exit_code [Examples.clean_run; Examples.one_failure]).
  - repeat apply Forall_cons; try apply Forall_nil; split; discriminate.
  - split; [discriminate|]. split; [reflexivity|].
    right. discriminate.
Defined.

Lemma consistent_sums (reports : list Report) :
  Forall consistent reports ->
  let total f := sumZ (map (fun r => get (f r) 0) reports) in
  0 <= total passed /\ 0 <= total failed /\ 0 <= total skipped
  /\ 0 <= total errors
  /\ total passed + total failed + total skipped + total errors
     = total Store.total_tests.
Proof.
  induction 1 as [|r reports Hr _ IH]; cbv zeta in *.
  - cbn. lia.
  - destruct Hr as (t & p & f & s & e & Ht & Hp & Hf & Hs & He & Hbounds).
    cbn [map sumZ fold_right].
    rewrite Ht, Hp, Hf, Hs, He. cbn [get].
    fold (sumZ (map (fun r => get (passed r) 0) reports)).
    fold (sumZ (map (fun r => get (failed r) 0) reports)).
    fold (sumZ (map (fun r => get (skipped r) 0) reports)).
    fold (sumZ (map (fun r => get (errors r) 0) reports)).
    fold (sumZ (map (fun r => get (Store.total_tests r) 0) reports)).
    lia.
Qed.

(** X8.  Aggregation keeps the accounting of its inputs: when in every
    report the four counters are present counts that add up to its
    [total_tests], the four totals add up to the total of tests, the overall
    pass rate lies between 0 and 1, and every report is counted as a run. *)
Theorem aggregate_totals_consistent (r : Report) (rest : list Report) :
  Forall consistent (r :: rest) ->
  exists s,
    aggregate_results (r :: rest) = Runs s
    /\ total_passed s + total_failed s + total_skipped s + total_errors s
       = Aggregate.total_tests s
    /\ (0 <= overall_pass_rate s <= 1)%Q
    /\ total_runs s = len (r :: rest).
Proof.
  intros Hall. pose proof (consistent_sums (r :: rest) Hall) as Hsums.
  cbv zeta in Hsums. destruct Hsums as (Hp & Hf & Hs & He & Hsum).
  eexists. split; [reflexivity|].
  cbn [total_passed total_failed total_skipped total_errors
       Aggregate.total_tests overall_pass_rate total_runs].
  split; [exact Hsum|]. split; [|reflexivity].
  apply truediv_unit_interval; lia.
Qed.

Lemma aggregate_totals_consistent_witness :
  exists s,
    aggregate_results [Examples.one_failure; Examples.broken_run] = Runs s
    /\ total_passed s + total_failed s + total_skipped s + total_errors s
       = Aggregate.total_tests s
    /\ (0 <= overall_pass_rate s <= 1)%Q
    /\ total_runs s = 2.
Proof.
  apply (aggregate_totals_consistent Examples.one_failure
           [Examples.broken_run]).
  repeat apply Forall_cons; try apply Forall_nil.
  - exists 5, 4, 1, 0, 0. repeat split; try reflexivity; discriminate.
  - exists 5, 2, 1, 1, 1. repeat split; try reflexivity; discriminate.
Defined.

Lemma sumZ_bump (d : counter) (n : string) :
  sumZ (map snd (bump d n)) = sumZ (map snd d) + 1.
Proof.
  unfold bump. induction d as [|[k v] d IH]; [reflexivity|].
  cbn [dict_get dict_set].
  destruct (String.eqb_spec n k) as [->|Hne]; cbn [get map snd sumZ fold_right].
  - fold (sumZ (map snd d)). lia.
  - fold (sumZ (map snd d)).
    fold (sumZ (map snd (dict_set n (get (dict_get n d) 0 + 1) d))).
    rewrite IH. lia.
Qed.

Lemma sumZ_fold_bump (names : list string) (d : counter) :
  sumZ (map snd (fold_left bump names d)) = sumZ (map snd d) + len names.
Proof.
  revert d. induction names as [|n names IH]; intros d; cbn [fold_left].
  - unfold len. cbn. lia.
  - rewrite IH, sumZ_bump. unfold len. cbn [List.length].
    rewrite Nat2Z.inj_succ. lia.
Qed.

Lemma sumZ_perm (l l' : list Z) : Permutation l l' -> sumZ l = sumZ l'.
Proof.
  unfold sumZ. induction 1; cbn [fold_right]; lia.
Qed.

(** X9.  The counts of the failure-frequency table add up to the number of
    check results with status FAIL or ERROR over all reports, and no name
    has two entries. *)
Theorem common_failures_conserve (r : Report) (rest : list Report) :
  let table := common_failures_of (aggregate_results (r :: rest)) in
  sumZ (map snd table)
  = len (filter failed_or_errored (scanned (r :: rest)))
  /\ NoDup (map fst table).
Proof.
  cbv zeta. rewrite common_failures_sorted_discovery.
  pose proof (sorted_desc_perm (discovery_table (failing_names (r :: rest))))
    as Hperm.
  split.
  - rewrite (sumZ_perm _ _ (Permutation_map snd Hperm)).
    rewrite <- fold_bump_discovery, sumZ_fold_bump.
    unfold failing_names. rewrite len_map. reflexivity.
  - eapply Permutation_NoDup; [symmetry; apply Permutation_map, Hperm|].
    rewrite discovery_table_keys. apply NoDup_first_seen.
Qed.

Lemma filter_perm {A : Type} (f : A -> bool) (l l' : list A) :
  Permutation l l' -> Permutation (filter f l) (filter f l').
Proof.
  induction 1 as [|x l l' _ IH|x y l|l l' l'' _ IH1 _ IH2]; cbn [filter].
  - constructor.
  - destruct (f x); [constructor|]; exact IH.
  - destruct (f x), (f y); try reflexivity. apply perm_swap.
  - etransitivity; eassumption.
Qed.

Lemma dict_get_sorted_discovery (names : list string) (n : string) :
  dict_get n (sorted_desc (discovery_table names))
  = if occurrences n names =? 0 then None else Some (occurrences n names).
Proof.
  pose proof (sorted_desc_perm (discovery_table names)) as Hperm.
  destruct (in_dec string_dec n names) as [Hin|Hnot].
  - pose proof (occurrences_present n names Hin) as Hpos.
    destruct (Z.eqb_spec (occurrences n names) 0) as [H0|_]; [lia|].
    apply dict_get_present.
    + eapply Permutation_NoDup; [symmetry; apply Permutation_map, Hperm|].
      rewrite discovery_table_keys. apply NoDup_first_seen.
    + eapply Permutation_in; [symmetry; exact Hperm|].
      unfold discovery_table.
      apply (in_map (fun m => (m, occurrences m names))).
      apply In_first_seen, Hin.
  - rewrite (occurrences_absent n names Hnot). cbn [Z.eqb].
    apply dict_get_absent. intros H. apply Hnot.
    apply (Permutation_in _ (Permutation_map fst Hperm)) in H.
    rewrite discovery_table_keys in H. apply In_first_seen, H.
Qed.

(** X10.  The aggregation does not depend on the order in which the reports
    were found: two orders of the same reports give the same status, the same
    totals and pass rate, and the same count for every check name. *)
Theorem aggregate_order_independent (l l' : list Report) :
  Permutation l l' ->
  status_of (aggregate_results l) = status_of (aggregate_results l')
  /\ pass_rate_of (aggregate_results l) = pass_rate_of (aggregate_results l')
  /\ (forall n,
        dict_get n (common_failures_of (aggregate_results l))
        = dict_get n (common_failures_of (aggregate_results l'))).
Proof.
  intros Hperm.
  assert (Hsum : forall f : Report -> Z,
             sumZ (map f l) = sumZ (map f l'))
    by (intros f; apply sumZ_perm, Permutation_map, Hperm).
  destruct l as [|r rest]; destruct l' as [|r' rest'].
  - repeat split.
  - apply Permutation_nil in Hperm. discriminate.
  - apply Permutation_sym, Permutation_nil in Hperm. discriminate.
  - split; [|split].
    + cbn [aggregate_results status_of Aggregate.status].
      rewrite !(Hsum (fun r => get (errors r) 0)),
        !(Hsum (fun r => get (failed r) 0)),
        !(Hsum (fun r => get (passed r) 0)),
        !(Hsum (fun r => get (Store.total_tests r) 0)).
      reflexivity.
    + cbn [aggregate_results pass_rate_of overall_pass_rate].
      rewrite !(Hsum (fun r => get (passed r) 0)),
        !(Hsum (fun r => get (Store.total_tests r) 0)).
      reflexivity.
    + intros n. rewrite !common_failures_sorted_discovery.
      rewrite !dict_get_sorted_discovery.
      assert (Hocc : occurrences n (failing_names (r :: rest))
                     = occurrences n (failing_names (r' :: rest'))).
      { unfold occurrences, len, failing_names, scanned. f_equal.
        apply Permutation_length, filter_perm, Permutation_map, filter_perm.
        apply Permutation_flat_map, Hperm. }
      rewrite Hocc. reflexivity.
Qed.

Lemma aggregate_order_independent_witness :
  status_of (aggregate_results [Examples.clean_run; Examples.broken_run])
  = status_of (aggregate_results [Examples.broken_run; Examples.clean_run]).
Proof.
  apply (aggregate_order_independent
           [Examples.clean_run; Examples.broken_run]
           [Examples.broken_run; Examples.clean_run]).
  apply perm_swap.
Defined.

End AggregateLaws.

(** * More on the trend analysis *)

Section TrendLaws.
Import Py Store Arith Dashboard Spec Terms.

Lemma pass_rates_missing_total (A : arith) (reports : list Report) :
  Exists (fun r => Store.total_tests r = None) reports ->
  exists e, pass_rates A reports = Raised e.
Proof.
  induction reports as [|r rest IH]; intros Hex; [inversion Hex|].
  cbn [pass_rates].
  destruct (Store.total_tests r) as [total|] eqn:Ht; [|eexists; reflexivity].
  assert (Hrest : Exists (fun r => Store.total_tests r = None) rest)
    by (inversion Hex; subst; [congruence | assumption]).
  destruct (IH Hrest) as (e & ->).
  destruct (total >? 0); [|eexists; reflexivity].
  destruct (passed r); [|eexists; reflexivity].
  destruct (int_truediv A _ total); eexists; reflexivity.
Qed.

(** X11.  The trend analysis indexes the counters: when a report in the
    window has no [total_tests] key, [calculate_trends] raises instead of
    returning a trend, whatever the arithmetic. *)
Theorem trends_raise_on_missing_total (A : arith) (reports : list Report) :
  Exists (fun r => Store.total_tests r = None) reports ->
  exists e, calculate_trends A reports = Raised e.
Proof.
  intros Hex. destruct (pass_rates_missing_total A reports Hex) as (e & He).
  exists e. unfold calculate_trends.
  destruct reports as [|r rest]; [inversion Hex|].
  replace (len (r :: rest) <? 1) with false
    by (symmetry; apply Z.ltb_ge; unfold len; cbn [List.length]; lia).
  rewrite He. reflexivity.
Qed.

Lemma trends_raise_on_missing_total_witness :
  exists e,
    calculate_trends binary64 [Examples.clean_run; Samples.bare] = Raised e.
Proof.
  apply (trends_raise_on_missing_total binary64
           [Examples.clean_run; Samples.bare]).
  apply Exists_cons_tl, Exists_cons_hd. reflexivity.
Defined.

Lemma truediv_nonneg (p n : Z) : 0 <= p -> 0 < n -> (0 <= truediv p n)%Q.
Proof.
  intros Hp Hn. unfold truediv.
  apply Qle_shift_div_l.
  - rewrite (Zlt_Qlt 0 n) in Hn. exact Hn.
  - rewrite Qmult_0_l. rewrite (Zle_Qle 0 p) in Hp. exact Hp.
Qed.

(** Without rounding, the pass rates of reports whose [passed] counters are
    counts are not negative. *)
Lemma pass_rates_nonneg (reports : list Report) (rates : list Q) :
  Forall (fun r => 0 <= get (passed r) 0) reports ->
  pass_rates exact reports = Returned rates ->
  Forall (fun q => (0 <= q)%Q) rates.
Proof.
  intros Hall. revert rates.
  induction Hall as [|r rest Hr _ IH]; intros rates Hpr; cbn [pass_rates] in Hpr.
  - inversion Hpr. constructor.
  - destruct (Store.total_tests r) as [total|]; [|discriminate].
    destruct (Z.gtb_spec total 0) as [Hpos|_]; [|apply IH, Hpr].
    destruct (passed r) as [p|]; [|discriminate].
    cbn [int_truediv exact] in Hpr.
    destruct (total =? 0); [discriminate|].
    destruct (pass_rates exact rest) as [rates'|]; [|discriminate].
    inversion Hpr; subst. cbn [get] in Hr.
    constructor; [apply truediv_nonneg; lia | apply IH; reflexivity].
Qed.

Lemma sumQ_nonneg (l : list Q) :
  Forall (fun q => (0 <= q)%Q) l -> (0 <= sumQ l)%Q.
Proof.
  induction 1 as [|q l Hq _ IH]; cbn [sumQ fold_right]; [lra|].
  fold (sumQ l). lra.
Qed.

Lemma sumQ_zero (l : list Q) :
  Forall (fun q => (0 <= q)%Q) l ->
  (sumQ l == 0)%Q <-> Forall (fun q => (q == 0)%Q) l.
Proof.
  induction 1 as [|q l Hq Hl IH]; cbn [sumQ fold_right].
  - split; [constructor | reflexivity].
  - fold (sumQ l). pose proof (sumQ_nonneg l Hl) as Hs. split.
    + intros H. constructor; [lra | apply IH; lra].
    + intros H. inversion H as [|? ? H0 Hrest]; subst.
      apply IH in Hrest. lra.
Qed.

(** X12.  The analysis without rounding: with two or three pass-rate data
    points the older window is empty and counts as 0: for reports whose
    [passed] counters are counts the trend is never declining, and it is
    stable only when every pass rate is 0. *)
Theorem short_history_never_declines
  (reports : list Report) (rates : list Q) :
  Forall (fun r => 0 <= get (passed r) 0) reports ->
  pass_rates exact reports = Returned rates ->
  (2 <= List.length rates <= 3)%nat ->
  exists t,
    calculate_trends exact reports = Returned t
    /\ trend t <> "declining"
    /\ (trend t = "stable" <-> Forall (fun q => (q == 0)%Q) rates)
    /\ (trend t = "improving" <-> ~ Forall (fun q => (q == 0)%Q) rates).
Proof.
  intros Hwf Hpr [Hlo Hhi].
  pose proof (pass_rates_nonneg reports rates Hwf Hpr) as Hnonneg.
  assert (Hlen : 2 <= len rates) by (unfold len; lia).
  unfold calculate_trends.
  rewrite (pass_rates_nonempty exact reports rates Hpr)
    by (destruct rates; [cbn in Hlo; lia | discriminate]).
  rewrite Hpr. eexists. split; [reflexivity|]. cbn [trend]. cbv zeta.
  change (num exact) with Q.
  replace (len rates >=? 2) with true
    by (symmetry; rewrite Z.geb_leb; apply Z.leb_le; exact Hlen).
  rewrite (windows_means rates Hlen).
  assert (Hrecent : recent_window rates = rates)
    by (unfold recent_window; apply firstn_all2; lia).
  assert (Holder : older_window rates = [])
    by (unfold older_window; rewrite skipn_all2 by lia; reflexivity).
  rewrite Hrecent, Holder.
  assert (Hzero : (mean [] == 0)%Q) by reflexivity.
  assert (Hden : (0 < inject_Z (Z.max 1 (len rates)))%Q)
    by (rewrite <- (Zlt_Qlt 0); lia).
  assert (Hmean0 : (mean rates == 0)%Q <-> (sumQ rates == 0)%Q).
  { unfold mean. split; intros H.
    - apply (Qmult_inj_r _ _ (/ inject_Z (Z.max 1 (len rates)))).
      + intros Hinv. apply Qinv_lt_0_compat in Hden. lra.
      + rewrite Qmult_0_l. exact H.
    - unfold Qdiv. rewrite H. apply Qmult_0_l. }
  assert (Hmeanpos : (0 <= mean rates)%Q).
  { unfold mean. apply Qle_shift_div_l; [exact Hden|].
    rewrite Qmult_0_l. apply sumQ_nonneg, Hnonneg. }
  rewrite <- (sumQ_zero rates Hnonneg), <- Hmean0.
  unfold direction.
  destruct (mean rates ?= mean [])%Q eqn:Hcmp.
  - apply Qeq_alt in Hcmp. repeat split; try discriminate; intros H;
      try reflexivity; lra.
  - apply Qlt_alt in Hcmp. exfalso. lra.
  - apply Qgt_alt in Hcmp. repeat split; try discriminate; intros H;
      try reflexivity; lra.
Qed.

Lemma short_history_never_declines_witness :
  exists t,
    calculate_trends exact [Examples.half_run; Examples.clean_run]
    = Returned t
    /\ trend t <> "declining"
    /\ (trend t = "stable"
        <-> Forall (fun q => (q == 0)%Q) [1 # 2; 5 # 5])
    /\ (trend t = "improving"
        <-> ~ Forall (fun q => (q == 0)%Q) [1 # 2; 5 # 5]).
Proof.
  apply (short_history_never_declines
           [Examples.half_run; Examples.clean_run] [1 # 2; 5 # 5]).
  - repeat apply Forall_cons; try apply Forall_nil; discriminate.
  - reflexivity.
  - cbn. lia.
Defined.

(** *** Signs in doubles *)

Lemma round_sign_clear (m e : Z) (l : location) :
  sign_clear (binary_round_aux prec emax false m e l).
Proof.
  unfold binary_round_aux.
  destruct (shr_fexp prec emax m e l) as [mrs' e'].
  destruct (shr_fexp prec emax _ e' loc_Exact) as [mrs'' e''].
  destruct (shr_m mrs''); [|destruct (e'' <=? emax - prec)|]; exact I
    || reflexivity.
Qed.

Lemma SFdiv_sign_clear (x y : float) :
  sign_clear x -> sign_clear y -> sign_clear (SFdiv prec emax x y).
Proof.
  destruct x as [sx|sx| |sx mx ex], y as [sy|sy| |sy my ey];
    cbn [sign_clear]; intros Hx Hy; subst; cbn [SFdiv xorb sign_clear];
    try exact I; try reflexivity.
  destruct (SFdiv_core_binary prec emax (Z.pos mx) ex (Z.pos my) ey)
    as [[mz ez] lz].
  apply round_sign_clear.
Qed.

Lemma SFadd_sign_clear (x y : float) :
  sign_clear x -> sign_clear y -> sign_clear (SFadd prec emax x y).
Proof.
  destruct x as [sx|sx| |sx mx ex], y as [sy|sy| |sy my ey];
    cbn [sign_clear]; intros Hx Hy; subst; cbn [SFadd sign_clear];
    try exact I; try reflexivity.
  cbn [cond_Zopp Z.add binary_normalize]. unfold binary_round.
  destruct (shl_align _ _ _) as [mz ez].
  apply round_sign_clear.
Qed.

Lemma float_of_int_sign_clear (n : Z) : 0 < n -> sign_clear (float_of_int n).
Proof.
  intros Hn. destruct n as [|p|p]; try lia.
  unfold float_of_int. cbn [binary_normalize]. unfold binary_round.
  destruct (shl_align _ _ _) as [mz ez].
  apply round_sign_clear.
Qed.

Lemma of_int_sign_clear (n : Z) : 0 <= n -> sign_clear (of_int n).
Proof. intros Hn. destruct n; try lia; reflexivity. Qed.

Lemma fsum_sign_clear (l : list float) (a : float) :
  sign_clear a -> Forall sign_clear l ->
  sign_clear (fold_left (SFadd prec emax) l a).
Proof.
  intros Ha Hl. revert a Ha.
  induction Hl as [|x l Hx _ IH]; intros a Ha; cbn [fold_left]; [exact Ha|].
  apply IH, SFadd_sign_clear; assumption.
Qed.

Lemma mean64_sign_clear (l : list float) :
  Forall sign_clear l -> sign_clear (mean64 l).
Proof.
  intros Hl. unfold mean64. apply SFdiv_sign_clear.
  - apply fsum_sign_clear; [reflexivity | exact Hl].
  - apply float_of_int_sign_clear. lia.
Qed.

Lemma sign_clear_compare (x : float) :
  sign_clear x ->
  SFcompare x (S754_zero false) = Some Gt
  \/ SFcompare x (S754_zero false) = Some Eq
  \/ SFcompare x (S754_zero false) = None.
Proof.
  destruct x as [s|s| |s m e]; cbn [sign_clear SFcompare]; intros H;
    subst; auto.
Qed.

(** The pass rates of reports whose [passed] counters are counts have a
    clear sign. *)
Lemma rates_sign_clear (reports : list Report) :
  Forall (fun r => 0 <= get (passed r) 0) reports ->
  Forall sign_clear (map rate64 (data_points reports)).
Proof.
  induction 1 as [|r rest Hr _ IH]; [constructor|].
  cbn [data_points flat_map]. fold (data_points rest).
  destruct (Z.gtb_spec (get (Store.total_tests r) 0) 0) as [Hpos|_];
    [|exact IH].
  cbn [app map]. constructor; [|exact IH].
  unfold rate64. cbn [fst snd].
  apply SFdiv_sign_clear; apply of_int_sign_clear; lia.
Qed.

Lemma pass_rates_sign_clear (reports : list Report) (rates : list float) :
  Forall (fun r => 0 <= get (passed r) 0) reports ->
  pass_rates binary64 reports = Returned rates ->
  Forall sign_clear rates.
Proof.
  intros Hall. revert rates.
  induction Hall as [|r rest Hr _ IH]; intros rates Hpr;
    cbn [pass_rates] in Hpr.
  - inversion Hpr. constructor.
  - destruct (Store.total_tests r) as [total|]; [|discriminate].
    destruct (Z.gtb_spec total 0) as [Hpos|_]; [|apply IH, Hpr].
    destruct (passed r) as [p|]; [|discriminate].
    cbn [int_truediv binary64] in Hpr. unfold int_truediv64 in Hpr.
    destruct (total =? 0); [discriminate|].
    destruct (is_inf _); [discriminate|].
    destruct (pass_rates binary64 rest) as [rates'|]; [|discriminate].
    inversion Hpr; subst. cbn [get] in Hr.
    constructor; [|apply IH; reflexivity].
    apply SFdiv_sign_clear; apply of_int_sign_clear; lia.
Qed.

(** The pass rates of reports in which no check passed are 0. *)
Lemma rates_all_zero (reports : list Report) :
  Forall (fun r => get (passed r) 0 = 0) reports ->
  Forall (fun x => x = S754_zero false) (map rate64 (data_points reports)).
Proof.
  induction 1 as [|r rest Hr _ IH]; [constructor|].
  cbn [data_points flat_map]. fold (data_points rest).
  destruct (Z.gtb_spec (get (Store.total_tests r) 0) 0) as [Hpos|_];
    [|exact IH].
  cbn [app map]. constructor; [|exact IH].
  unfold rate64. cbn [fst snd]. rewrite Hr.
  destruct (get (Store.total_tests r) 0); try lia. reflexivity.
Qed.

(** X22.  The analysis in doubles, on a history whose reports have their
    counters, whose [passed] counters are counts and whose pass rates are
    within the doubles: with two or three pass-rate data points the older
    window is empty and counts as 0, so that the trend is never declining;
    it is improving exactly when the mean of the pass rates is above 0, and
    it is stable when no check passed in any report. *)
Theorem short_history_never_declines_in_doubles (reports : list Report) :
  Forall has_counters reports ->
  Forall (fun r => 0 <= get (passed r) 0) reports ->
  Forall (fun x => is_inf x = false) (map rate64 (data_points reports)) ->
  (2 <= List.length (data_points reports) <= 3)%nat ->
  exists t,
    calculate_trends binary64 reports = Returned t
    /\ trend t <> "declining"
    /\ (trend t = "improving"
        <-> SFltb (S754_zero false)
                  (mean64 (map rate64 (data_points reports))) = true)
    /\ (Forall (fun r => get (passed r) 0 = 0) reports ->
        trend t = "stable").
Proof.
  intros Hkeys Hwf Hfin [Hlo Hhi].
  destruct (trend_of_history reports) as (t & Ht & Htrend);
    [intros ->; cbn in Hlo; lia | exact Hkeys | exact Hfin |].
  exists t. split; [exact Ht|]. rewrite Htrend.
  pose proof (rates_sign_clear reports Hwf) as Hsign.
  pose proof (rates_all_zero reports) as Hzero.
  set (rates := map rate64 (data_points reports)) in *.
  assert (Hlen : (2 <= List.length rates <= 3)%nat)
    by (subst rates; rewrite length_map; lia).
  clearbody rates.
  assert (Hdir : trend64 rates
                 = direction64 (mean64 rates) (S754_zero false)).
  { destruct rates as [|r1 [|r2 rest]]; cbn [List.length] in Hlen; try lia.
    unfold trend64, recent_window, older_window.
    rewrite firstn_all2 by (cbn [List.length]; lia).
    rewrite skipn_all2 by (cbn [List.length]; lia).
    reflexivity. }
  rewrite Hdir. unfold direction64, SFltb.
  rewrite (SFcompare_antisym (mean64 rates) (S754_zero false)).
  split; [|split].
  - destruct (sign_clear_compare _ (mean64_sign_clear rates Hsign))
      as [->|[->| ->]]; discriminate.
  - destruct (sign_clear_compare _ (mean64_sign_clear rates Hsign))
      as [->|[->| ->]]; cbn [option_map CompOpp]; split; intros H;
      try reflexivity; discriminate.
  - intros Hnone. specialize (Hzero Hnone).
    destruct rates as [|r1 [|r2 [|r3 [|r4 rest]]]];
      cbn [List.length] in Hlen; try lia.
    + inversion Hzero as [|? ? H1 Hz2]; subst.
      inversion Hz2 as [|? ? H2 _]; subst. reflexivity.
    + inversion Hzero as [|? ? H1 Hz2]; subst.
      inversion Hz2 as [|? ? H2 Hz3]; subst.
      inversion Hz3 as [|? ? H3 _]; subst. reflexivity.
Qed.

Lemma short_history_never_declines_in_doubles_witness :
  exists t,
    calculate_trends binary64 [Examples.half_run; Examples.clean_run]
    = Returned t
    /\ trend t <> "declining"
    /\ (trend t = "improving"
        <-> SFltb (S754_zero false)
              (mean64
                 (map rate64
                    (data_points [Examples.half_run; Examples.clean_run])))
            = true)
    /\ (Forall (fun r => get (passed r) 0 = 0)
          [Examples.half_run; Examples.clean_run] ->
        trend t = "stable").
Proof.
  apply (short_history_never_declines_in_doubles
           [Examples.half_run; Examples.clean_run]).
  - repeat apply Forall_cons; try apply Forall_nil; split; discriminate.
  - repeat apply Forall_cons; try apply Forall_nil; discriminate.
  - vm_compute. repeat constructor.
  - vm_compute. split; apply le_n || (apply le_S, le_n).
Defined.

End TrendLaws.

(** * More on the benchmark *)

Section BenchmarkLaws.
Import Py Benchmark Spec Terms.











Lemma successful_length (run : nat -> Z * Q) (runs : nat) :
  (List.length (successful run runs) <= runs)%nat.
Proof.
  unfold successful.
  assert (H : forall l : list nat,
             (List.length
                (flat_map (fun i => let '(code, duration) := run i in
                                    if (code =? 0)%Z then [duration]
                                    else []) l)
              <= List.length l)%nat).
  { induction l as [|i l IH]; [apply le_n|].
    cbn [flat_map]. rewrite length_app. cbn [List.length].
    destruct (run i) as [code duration].
    destruct (code =? 0); cbn [List.length]; lia. }
  specialize (H (seq 0 runs)). rewrite length_seq in H. exact H.
Qed.

(** X14.  The concurrent success rate of the summary lies between 0 and 1:
    at most the 5 started commands succeed, and a benchmark without a
    successful command counts as 0. *)
Theorem concurrent_success_rate_bounds (env : Env) :
  (0 <= summary_concurrent_success_rate (run_all_benchmarks env) <= 1)%Q.
Proof.
  cbn [run_all_benchmarks summary_concurrent_success_rate].
  unfold benchmark_concurrent_commands.
  pose proof (successful_length (concurrent_run env) 5) as Hlen.
  destruct (successful (concurrent_run env) 5) as [|t ts] eqn:E.
  - cbn. split; discriminate.
  - cbn [successful_runs get].
    apply truediv_unit_interval; [|lia]. unfold len. lia.
Qed.

(** X15.  Every benchmark of a run answers with a status among PASS, FAIL,
    SKIP and ERROR, and only a benchmark with status PASS carries a
    rating. *)
Theorem benchmark_statuses_closed (env : Env) (name : string) (b : Bench) :
  In (name, b) (benchmarks (run_all_benchmarks env)) ->
  In (status b) suite_statuses
  /\ (rating b <> None -> status b = "PASS").
Proof.
  cbn [run_all_benchmarks benchmarks In].
  unfold benchmark_startup_time, benchmark_help_command,
    benchmark_config_generation, benchmark_binary_size,
    benchmark_memory_usage, benchmark_concurrent_commands, failed_bench,
    suite_statuses.
  intros [H|[H|[H|[H|[H|[H|[]]]]]]]; inversion H; subst; clear H;
    repeat match goal with
           | |- context [match ?x with _ => _ end] => destruct x
           end;
    cbn [status rating In]; split; auto 6; congruence.
Qed.

Lemma benchmark_statuses_closed_witness :
  In (status (benchmark_memory_usage Examples.unrated)) suite_statuses
  /\ (rating (benchmark_memory_usage Examples.unrated) <> None ->
      status (benchmark_memory_usage Examples.unrated) = "PASS").
Proof.
  apply (benchmark_statuses_closed Examples.unrated "memory_usage").
  cbn [run_all_benchmarks benchmarks In]. auto 6.
Defined.

End BenchmarkLaws.

(** * More on the security checker *)

Section SecurityLaws.
Import Py Security Spec.




Lemma filter_length_implied {A : Type} (f g : A -> bool) (l : list A) :
  (forall x, f x = true -> g x = true) ->
  len (filter f l) <= len (filter g l).
Proof.
  intros Himp. unfold len. apply inj_le.
  induction l as [|x l IH]; [apply le_n|].
  cbn [filter]. destruct (f x) eqn:Hf.
  - rewrite (Himp x Hf). cbn [List.length]. lia.
  - destruct (g x); cbn [List.length]; lia.
Qed.

Lemma mem_filter_positive (st : string) (l : list string) :
  mem st l = true <-> 0 < len (filter (fun s => (s =? st)%string) l).
Proof.
  unfold mem, len. induction l as [|x l IH]; cbn [existsb filter].
  - cbn. split; [discriminate | lia].
  - rewrite (String.eqb_sym st x).
    destruct (x =? st)%string; cbn [orb List.length]; [|exact IH].
    split; [lia | reflexivity].
Qed.

(** The result of [run_all_checks], in terms of the list of its checks. *)
Lemma run_all_checks_returned (env : Env) (results : Results) :
  run_all_checks env = Returned results ->
  exists c cs,
    check_cargo_audit env = Returned c
    /\ cs = [ ("cargo_audit", c);
              ("dependencies", check_dependencies env);
              ("secrets", check_secrets env);
              ("unsafe_code", check_unsafe_code env);
              ("file_permissions", check_file_permissions env) ]
    /\ results
       = mkResults
           (if mem "FAIL" (map (fun kv => status (snd kv)) cs) then "FAIL"
            else if mem "ERROR" (map (fun kv => status (snd kv)) cs)
                 then "ERROR"
            else if mem "WARN" (map (fun kv => status (snd kv)) cs)
                 then "WARN"
            else "PASS")
           (len cs)
           (len (filter (fun s => mem s ["FAIL"; "WARN"])
                        (map (fun kv => status (snd kv)) cs)))
           (len (filter (fun s => (s =? "FAIL")%string)
                        (map (fun kv => status (snd kv)) cs)))
           cs.
Proof.
  unfold run_all_checks.
  destruct (check_cargo_audit env) as [c|e]; [|discriminate].
  intros H. exists c. eexists. split; [reflexivity|].
  split; [reflexivity|]. injection H as <-. reflexivity.
Qed.

(** X17.  In the result of the security checker there are 5 checks; the
    critical issues are among the issues and the issues among the checks;
    the overall status is FAIL exactly when there is a critical issue, and
    PASS exactly when every check is PASS or SKIP. *)
Theorem security_counters (env : Env) (results : Results) :
  run_all_checks env = Returned results ->
  total_checks results = 5
  /\ 0 <= critical_issues results <= total_issues results
  /\ total_issues results <= total_checks results
  /\ (overall_status results = "FAIL" <-> 0 < critical_issues results)
  /\ (overall_status results = "PASS"
      <-> Forall (fun kv => status (snd kv) = "PASS"
                            \/ status (snd kv) = "SKIP")
                 (checks results)).
Proof.
  intros Hrun.
  destruct (run_all_checks_returned env results Hrun)
    as (c & cs & Haudit & Hcs & ->).
  assert (Hclosed : Forall (fun kv => In (status (snd kv)) security_statuses)
                           cs).
  { rewrite Hcs.
    repeat (apply Forall_cons; [cbn [snd]|]); [| | | | |apply Forall_nil];
      eauto using check_cargo_audit_status, check_dependencies_status,
        check_secrets_status, check_unsafe_code_status,
        check_file_permissions_status. }
  assert (Hfive : len cs = 5) by (rewrite Hcs; reflexivity).
  clear Hcs Hrun Haudit.
  cbn [total_checks critical_issues total_issues overall_status checks].
  set (statuses := map (fun kv => status (snd kv)) cs).
  assert (Hlen : len statuses = len cs)
    by (subst statuses; apply len_map).
  assert (Hcrit : len (filter (fun s => (s =? "FAIL")%string) statuses)
                  <= len (filter (fun s => mem s ["FAIL"; "WARN"]) statuses)).
  { apply filter_length_implied. intros x Hx. unfold mem. cbn [existsb].
    rewrite Hx. reflexivity. }
  assert (Hissues : len (filter (fun s => mem s ["FAIL"; "WARN"]) statuses)
                    <= len statuses).
  { unfold len. apply inj_le, filter_length_le. }
  split; [exact Hfive|].
  split; [split; [unfold len; lia | exact Hcrit]|].
  split; [lia|].
  pose proof (mem_filter_positive "FAIL" statuses) as Hfail.
  split.
  - rewrite <- Hfail. destruct (mem "FAIL" statuses);
      [split; reflexivity|].
    destruct (mem "ERROR" statuses); [split; discriminate|].
    destruct (mem "WARN" statuses); split; discriminate.
  - assert (Hnone : forall st, mem st statuses = false
                               <-> Forall (fun kv => status (snd kv) <> st) cs).
    { intros st. rewrite mem_false. subst statuses.
      rewrite in_map_iff, Forall_forall. split.
      - intros Hno kv Hin Heq. apply Hno. exists kv. auto.
      - intros Hall (kv & Heq & Hin). exact (Hall kv Hin Heq). }
    split.
    + intros Hpass.
      destruct (mem "FAIL" statuses) eqn:HF; [discriminate|].
      destruct (mem "ERROR" statuses) eqn:HE; [discriminate|].
      destruct (mem "WARN" statuses) eqn:HW; [discriminate|].
      apply Hnone in HF, HE, HW.
      rewrite Forall_forall in *. intros kv Hin.
      specialize (Hclosed kv Hin). specialize (HF kv Hin).
      specialize (HE kv Hin). specialize (HW kv Hin).
      cbn [security_statuses In] in Hclosed.
      destruct Hclosed as [H|[H|[H|[H|[H|[]]]]]]; auto; congruence.
    + intros Hall.
      assert (HF : mem "FAIL" statuses = false)
        by (apply Hnone; eapply Forall_impl; [|exact Hall];
            intros kv [H | H]; rewrite H; discriminate).
      assert (HE : mem "ERROR" statuses = false)
        by (apply Hnone; eapply Forall_impl; [|exact Hall];
            intros kv [H | H]; rewrite H; discriminate).
      assert (HW : mem "WARN" statuses = false)
        by (apply Hnone; eapply Forall_impl; [|exact Hall];
            intros kv [H | H]; rewrite H; discriminate).
      rewrite HF, HE, HW. reflexivity.
Qed.

Lemma security_counters_witness :
  exists results,
    run_all_checks Examples.git_dependency = Returned results
    /\ total_checks results = 5
    /\ 0 <= critical_issues results <= total_issues results.
Proof.
  eexists. split; [reflexivity|].
  pose proof (security_counters Examples.git_dependency _ eq_refl) as H.
  split; [apply H | apply H].
Defined.

(** X18.  The permission check flags a file exactly when the mode grants
    others both read and write access (a last octal digit of 6 or 7); a mode
    that grants others write access without read access is not flagged. *)
Theorem world_writable_bits (st_mode : Z) :
  world_writable st_mode
  = (Z.testbit st_mode 1 && Z.testbit st_mode 2)%bool.
Proof.
  unfold world_writable. cbv zeta.
  rewrite <- (Z.mod_pow2_bits_low st_mode 3 1) by lia.
  rewrite <- (Z.mod_pow2_bits_low st_mode 3 2) by lia.
  change (2 ^ 3) with 8.
  pose proof (Z.mod_pos_bound st_mode 8 ltac:(lia)) as Hr.
  set (r := st_mode mod 8) in *.
  assert (Hcases : r = 0 \/ r = 1 \/ r = 2 \/ r = 3 \/ r = 4 \/ r = 5
                   \/ r = 6 \/ r = 7) by lia.
  destruct Hcases as [->|[->|[->|[->|[->|[->|[->| ->]]]]]]]; reflexivity.
Qed.

End SecurityLaws.

(** * The badge *)

Section BadgeLaws.
Import Py Store Badge Spec Terms.

(** X19.  For a report with tests, the badge shows the status and the pass
    rate that the aggregator computes for that report alone; for a report
    without tests the badge shows UNKNOWN, whatever its other counters. *)
Theorem badge_agrees_with_aggregate (r : Report) :
  (0 < get (Store.total_tests r) 0 ->
   badge_status r
   = (Aggregate.status_of (Aggregate.aggregate_results [r]),
      Aggregate.pass_rate_of (Aggregate.aggregate_results [r])))
  /\ (get (Store.total_tests r) 0 = 0 -> badge_status r = ("UNKNOWN", 0 # 1)).
Proof.
  split.
  - intros Hpos. unfold badge_status.
    cbn [Aggregate.aggregate_results Aggregate.status_of Aggregate.status
         Aggregate.pass_rate_of Aggregate.overall_pass_rate map sumZ
         fold_right].
    rewrite !Z.add_0_r.
    replace (get (Store.total_tests r) 0 =? 0) with false
      by (symmetry; apply Z.eqb_neq; lia).
    rewrite (Z.max_r 1) by lia. reflexivity.
  - intros Hzero. unfold badge_status. rewrite Hzero. reflexivity.
Qed.

Lemma badge_agrees_with_aggregate_witness :
  badge_status Examples.one_failure = ("PASS_WITH_WARNINGS", 4 # 5).
Proof.
  rewrite (proj1 (badge_agrees_with_aggregate Examples.one_failure));
    reflexivity.
Defined.

Lemma ltb_empty (t : string) : String.ltb "" t = true <-> t <> "".
Proof.
  destruct t; cbn; split; try congruence; try discriminate; auto.
Qed.

Lemma not_ltb_leb (a b : string) :
  String.ltb a b = false -> String.leb b a = true.
Proof.
  unfold String.ltb, String.leb. rewrite (String.compare_antisym a b).
  destruct (String.compare b a); cbn; congruence.
Qed.

Lemma leb_refl (a : string) : String.leb a a = true.
Proof.
  unfold String.leb.
  assert (H : String.compare a a = Eq)
    by (apply OrderedTypeEx.String_as_OT.cmp_eq; reflexivity).
  rewrite H. reflexivity.
Qed.

Lemma leb_ltb_trans (x a b : string) :
  String.leb x a = true -> String.ltb a b = true -> String.leb x b = true.
Proof.
  unfold String.leb, String.ltb. intros Hxa Hab.
  destruct (String.compare a b) eqn:Eab; try discriminate.
  assert (Hlt : OrderedTypeEx.String_as_OT.lt a b)
    by (apply OrderedTypeEx.String_as_OT.cmp_lt; exact Eab).
  destruct (String.compare x a) eqn:Exa; try discriminate.
  - apply String.compare_eq_iff in Exa. subst. rewrite Eab. reflexivity.
  - assert (Hxb : String.compare x b = Lt).
    { apply OrderedTypeEx.String_as_OT.cmp_lt.
      eapply OrderedTypeEx.String_as_OT.lt_trans; [|exact Hlt].
      apply OrderedTypeEx.String_as_OT.cmp_lt. exact Exa. }
    rewrite Hxb. reflexivity.
Qed.

Lemma ltb_nonempty (a b : string) : String.ltb a b = true -> b <> "".
Proof.
  intros H ->. unfold String.ltb in H. destruct a; cbn in H; discriminate.
Qed.

(** One turn of the scan keeps what it holds the newest of the files seen. *)
Lemma keep_latest_newest (seen : list Loaded) (acc : option Loaded * string)
    (file : outcome Loaded) :
  newest seen acc -> newest (seen ++ readable [file]) (keep_latest acc file).
Proof.
  destruct acc as [latest_report latest_time]. unfold newest, keep_latest.
  cbn [fst snd readable flat_map].
  destruct file as [l|e]; [|rewrite !app_nil_r; auto].
  cbn [app]. fold (stamp l).
  destruct (String.ltb latest_time (stamp l)) eqn:Hlt; cbn [fst snd].
  - (* the file is newer than all seen *)
    pose proof (ltb_nonempty _ _ Hlt) as Hne.
    intros Hinv. split; [reflexivity|].
    split; [apply in_or_app; right; left; reflexivity|].
    split; [exact Hne|].
    apply Forall_app. split; [|constructor; [apply leb_refl | constructor]].
    destruct latest_report as [l0|].
    + destruct Hinv as (-> & _ & _ & Hall).
      eapply Forall_impl; [|exact Hall]. intros l' Hl'. cbv beta in Hl'.
      exact (leb_ltb_trans _ _ _ Hl' Hlt).
    + destruct Hinv as (-> & Hall).
      eapply Forall_impl; [|exact Hall]. intros l' Hl'. cbv beta in Hl'.
      rewrite Hl'. destruct (stamp l); reflexivity.
  - (* the file is not newer *)
    destruct latest_report as [l0|].
    + intros (-> & Hin & Hne & Hall). split; [reflexivity|].
      split; [apply in_or_app; left; exact Hin|]. split; [exact Hne|].
      apply Forall_app. split; [exact Hall|].
      constructor; [apply not_ltb_leb, Hlt | constructor].
    + intros (-> & Hall). split; [reflexivity|].
      apply Forall_app. split; [exact Hall|].
      constructor; [|constructor].
      destruct (stamp l) eqn:E; [reflexivity | cbn in Hlt; discriminate].
Qed.

Lemma fold_keep_latest_newest (files : list (outcome Loaded))
    (seen : list Loaded) (acc : option Loaded * string) :
  newest seen acc ->
  newest (seen ++ readable files) (fold_left keep_latest files acc).
Proof.
  revert seen acc. induction files as [|file files IH]; intros seen acc Hinv.
  - cbn. rewrite app_nil_r. exact Hinv.
  - cbn [fold_left].
    replace (seen ++ readable (file :: files))%list
      with ((seen ++ readable [file]) ++ readable files)%list.
    + apply IH, keep_latest_newest, Hinv.
    + rewrite <- app_assoc. f_equal. unfold readable. cbn [flat_map].
      rewrite app_nil_r. reflexivity.
Qed.

(** X20.  The latest report the badge is drawn from is a readable report
    file with a non-empty timestamp that no other readable report exceeds, in
    the order of strings; there is none exactly when every readable report
    has an empty or absent timestamp, or the directory does not exist. *)
Theorem latest_report_is_newest (dir_exists : bool)
    (files : list (outcome Loaded)) :
  match load_latest_qa_report dir_exists files with
  | Some l =>
      dir_exists = true
      /\ In l (readable files)
      /\ stamp l <> ""
      /\ Forall (fun l' => String.leb (stamp l') (stamp l) = true)
                (readable files)
  | None =>
      dir_exists = false
      \/ Forall (fun l => stamp l = "") (readable files)
  end.
Proof.
  unfold load_latest_qa_report.
  destruct dir_exists; cbn [negb]; [|left; reflexivity].
  pose proof (fold_keep_latest_newest files [] (None, "")) as Hinv.
  cbn [app] in Hinv. unfold newest in Hinv at 2.
  destruct (fst (fold_left keep_latest files (None, ""))) as [l|].
  - destruct Hinv as (_ & Hin & Hne & Hall);
      [cbn; split; [reflexivity | constructor]|].
    repeat split; assumption.
  - destruct Hinv as (_ & Hall);
      [cbn; split; [reflexivity | constructor]|].
    right. exact Hall.
Qed.

End BadgeLaws.

Section TrendBounds.
Import Py Store Arith Dashboard Spec Terms.

Lemma pass_rates_unit (reports : list Report) (rates : list Q) :
  Forall (fun r => 0 <= get (passed r) 0 <= get (Store.total_tests r) 0)
         reports ->
  pass_rates exact reports = Returned rates ->
  Forall (fun q => (0 <= q <= 1)%Q) rates.
Proof.
  intros Hall. revert rates.
  induction Hall as [|r rest Hr _ IH]; intros rates Hpr;
    cbn [pass_rates] in Hpr.
  - inversion Hpr. constructor.
  - destruct (Store.total_tests r) as [total|]; [|discriminate].
    destruct (Z.gtb_spec total 0) as [Hpos|_]; [|apply IH, Hpr].
    destruct (passed r) as [p|]; [|discriminate].
    cbn [int_truediv exact] in Hpr.
    destruct (total =? 0); [discriminate|].
    destruct (pass_rates exact rest) as [rates'|]; [|discriminate].
    inversion Hpr; subst. cbn [get] in Hr.
    constructor; [apply truediv_unit_interval; lia | apply IH; reflexivity].
Qed.

Lemma sumQ_unit (l : list Q) :
  Forall (fun q => (0 <= q <= 1)%Q) l ->
  (0 <= sumQ l <= inject_Z (len l))%Q.
Proof.
  unfold len. induction 1 as [|q l Hq _ IH];
    cbn [sumQ fold_right List.length].
  - split; discriminate.
  - fold (sumQ l). rewrite Nat2Z.inj_succ. unfold Z.succ.
    rewrite inject_Z_plus. change (inject_Z 1) with 1%Q. lra.
Qed.

(** X21.  The analysis without rounding: for reports whose [passed] counter
    is a count not above [total_tests], a trend that is returned has a
    current and an average pass rate between 0 and 1, and counts every
    report of the window, also those without tests. *)
Theorem trend_pass_rates_bounded (reports : list Report) (t : Trends exact) :
  Forall (fun r => 0 <= get (passed r) 0 <= get (Store.total_tests r) 0)
         reports ->
  calculate_trends exact reports = Returned t ->
  (0 <= pass_rate_current t <= 1)%Q
  /\ (0 <= pass_rate_average t <= 1)%Q
  /\ total_reports t = len reports.
Proof.
  intros Hall. unfold calculate_trends.
  destruct (len reports <? 1).
  - intros [= <-]. cbn. repeat split; discriminate.
  - destruct (pass_rates exact reports) as [rates|e] eqn:Hpr; [|discriminate].
    intros [= <-].
    cbn [pass_rate_current pass_rate_average total_reports].
    pose proof (pass_rates_unit reports rates Hall Hpr) as Hunit.
    split; [|split; [|reflexivity]].
    + destruct Hunit as [|q rates' Hq _]; cbn [head_or_zero];
        [split; discriminate | exact Hq].
    + pose proof (sumQ_unit rates Hunit) as Hsum.
      destruct rates as [|q rates']; cbn [average_or_zero];
        [split; discriminate|].
      cbn [div_by_int exact]. rewrite fsum_exact.
      assert (Hden : (0 < inject_Z (len (q :: rates')))%Q)
        by (rewrite <- (Zlt_Qlt 0); unfold len; cbn [List.length]; lia).
      split.
      * apply Qle_shift_div_l; [exact Hden|]. rewrite Qmult_0_l. apply Hsum.
      * apply Qle_shift_div_r; [exact Hden|]. rewrite Qmult_1_l. apply Hsum.
Qed.

Lemma trend_pass_rates_bounded_witness :
  exists t,
    calculate_trends exact [Examples.one_failure; Examples.half_run]
    = Returned t
    /\ (0 <= pass_rate_current t <= 1)%Q
    /\ (0 <= pass_rate_average t <= 1)%Q
    /\ total_reports t = 2.
Proof.
  eexists. split; [reflexivity|].
  apply (trend_pass_rates_bounded [Examples.one_failure; Examples.half_run]).
  - repeat apply Forall_cons; try apply Forall_nil; split; discriminate.
  - reflexivity.
Defined.

(** X23.  The analysis in doubles: for reports whose [passed] counter is a
    count, a trend that is returned has a current and an average pass rate
    that are not below 0, and counts every report of the window, also those
    without tests. *)
Theorem trend_pass_rates_not_negative
  (reports : list Report) (t : Trends binary64) :
  Forall (fun r => 0 <= get (passed r) 0) reports ->
  calculate_trends binary64 reports = Returned t ->
  SFltb (pass_rate_current t) (S754_zero false) = false
  /\ SFltb (pass_rate_average t) (S754_zero false) = false
  /\ total_reports t = len reports.
Proof.
  intros Hall. unfold calculate_trends.
  destruct (len reports <? 1).
  - intros [= <-]. repeat split.
  - destruct (pass_rates binary64 reports) as [rates|e] eqn:Hpr;
      [|discriminate].
    intros [= <-].
    cbn [pass_rate_current pass_rate_average total_reports].
    pose proof (pass_rates_sign_clear reports rates Hall Hpr) as Hsign.
    assert (Hbelow : forall x, sign_clear x ->
                       SFltb x (S754_zero false) = false).
    { intros x Hx. unfold SFltb.
      destruct (sign_clear_compare x Hx) as [->|[->| ->]]; reflexivity. }
    split; [|split; [|reflexivity]]; apply Hbelow.
    + destruct Hsign as [|x rates' Hx _]; cbn [head_or_zero];
        [reflexivity | exact Hx].
    + destruct rates as [|x rates']; cbn [average_or_zero]; [reflexivity|].
      cbn [div_by_int binary64]. apply SFdiv_sign_clear.
      * apply fsum_sign_clear; [reflexivity | exact Hsign].
      * apply float_of_int_sign_clear. unfold len. cbn [List.length]. lia.
Qed.

Lemma trend_pass_rates_not_negative_witness :
  exists t,
    calculate_trends binary64 [Examples.one_failure; Examples.half_run]
    = Returned t
    /\ SFltb (pass_rate_current t) (S754_zero false) = false
    /\ SFltb (pass_rate_average t) (S754_zero false) = false
    /\ total_reports t = 2.
Proof.
  destruct (trend_of_history [Examples.one_failure; Examples.half_run])
    as (t & Ht & _).
  - discriminate.
  - repeat apply Forall_cons; try apply Forall_nil; split; discriminate.
  - vm_compute. repeat constructor.
  - exists t. split; [exact Ht|].
    apply (trend_pass_rates_not_negative
             [Examples.one_failure; Examples.half_run]);
      [|exact Ht].
    repeat apply Forall_cons; try apply Forall_nil; discriminate.
Defined.

End TrendBounds.
